(** * prometheus/gen_go_collector_metrics_set.go

    A shallow embedding of the generator of [go_collector_metrics_*_test.go]:
    the cardinality computation [rmCardinality], the template function
    [rm2prom] and the name table the template [testFile] renders.

    Go values are modelled as the program has them:
    - [int] is a two's complement integer of 32 or 64 bits; its operations
      wrap around (module [int]);
    - [float64] is an IEEE 754 value ([spec_float]); [==] is [SFeqb];
    - [string] is a sequence of bytes (Rocq's [string]);
    - a run-time panic ends the computation ([Panic]). *)

From Stdlib Require Import ZArith List String Ascii Bool Lia.
From Stdlib Require Import Floats.SpecFloat.
From Stdlib Require Import DecimalString DecimalZ Permutation.
Import ListNotations.

Local Open Scope Z_scope.

(** ** Panics *)

Inductive panic : Type :=
| IndexOutOfRange (i len : Z)   (* index out of range [i] with length len *)
| SliceOutOfRange (lo len : Z)  (* slice bounds out of range [lo:len] *)
| NotFloat64Histogram.          (* called Float64Histogram on non-Float64Histogram metric value *)

Inductive result (A : Type) : Type :=
| Ok (a : A)
| Panic (p : panic).

Arguments Ok {A} a.
Arguments Panic {A} p.

Definition bind {A B : Type} (r : result A) (k : A -> result B) : result B :=
  match r with
  | Ok a => k a
  | Panic p => Panic p
  end.

Notation "x <- r ;; k" := (bind r (fun x => k))
  (at level 61, r at next level, right associativity).

(** ** The type int *)

Inductive IntSize : Type := Int32 | Int64.

Module int.

Definition bits (sz : IntSize) : Z :=
  match sz with Int32 => 32 | Int64 => 64 end.

Definition maxInt (sz : IntSize) : Z := 2 ^ (bits sz - 1) - 1.
Definition minInt (sz : IntSize) : Z := - 2 ^ (bits sz - 1).

(** The value of type int congruent to [z] modulo [2 ^ bits]. *)
Definition wrap (sz : IntSize) (z : Z) : Z :=
  (z + 2 ^ (bits sz - 1)) mod 2 ^ bits sz - 2 ^ (bits sz - 1).

Definition add (sz : IntSize) (a b : Z) : Z := wrap sz (a + b).
Definition sub (sz : IntSize) (a b : Z) : Z := wrap sz (a - b).

Definition inRange (sz : IntSize) (z : Z) : Prop :=
  minInt sz <= z <= maxInt sz.

End int.

(** len of a slice, as an int. *)
Definition len {A : Type} (l : list A) : Z := Z.of_nat (List.length l).

(** [l[i]] *)
Definition indexAt {A : Type} (l : list A) (i : Z) : result A :=
  if (0 <=? i) && (i <? len l) then
    match nth_error l (Z.to_nat i) with
    | Some a => Ok a
    | None => Panic (IndexOutOfRange i (len l))
    end
  else Panic (IndexOutOfRange i (len l)).

(** ** float64 and package math *)

Definition float64 : Type := spec_float.

(** The operator [==] on float64. *)
Definition float64_eq (x y : float64) : bool := SFeqb x y.

Module math.

(** [Inf] returns positive infinity if [sign >= 0], negative infinity if
    [sign < 0]. *)
Definition Inf (sign : Z) : float64 :=
  if 0 <=? sign then S754_infinity false else S754_infinity true.

End math.

(** ** Package strings *)

Module strings.

Definition len (s : string) : Z := Z.of_nat (String.length s).

(** [IndexRune s r] for a rune [r] below [utf8.RuneSelf], where it is the
    index of the first byte [r] of [s], or -1. *)
Fixpoint IndexRune (s : string) (r : ascii) : Z :=
  match s with
  | EmptyString => -1
  | String c s' =>
      if Ascii.eqb c r then 0
      else let i := IndexRune s' r in
           if i <? 0 then -1 else i + 1
  end.

Fixpoint drop (n : nat) (s : string) : string :=
  match n, s with
  | O, _ => s
  | S n', String _ s' => drop n' s'
  | S _, EmptyString => EmptyString
  end.

(** [s[lo:]] *)
Definition sliceFrom (s : string) (lo : Z) : result string :=
  if (0 <=? lo) && (lo <=? len s) then Ok (drop (Z.to_nat lo) s)
  else Panic (SliceOutOfRange lo (len s)).

(** [HasPrefix s prefix] *)
Definition HasPrefix (s prefix : string) : bool := String.prefix prefix s.

(** [TrimPrefix s prefix]: [s] without the leading [prefix], or [s] itself
    when it does not start with [prefix]. *)
Definition TrimPrefix (s prefix : string) : string :=
  if HasPrefix s prefix then drop (String.length prefix) s else s.

(** [Split s sep] for a separator of one byte: the substrings of [s] between
    the separators, at least one. *)
Fixpoint Split (s : string) (sep : ascii) : list string :=
  match s with
  | EmptyString => [EmptyString]
  | String c s' =>
      if Ascii.eqb c sep then EmptyString :: Split s' sep
      else match Split s' sep with
           | [] => [String c EmptyString]
           | first :: rest => String c first :: rest
           end
  end.

End strings.

(** ** Package fmt *)

Module fmt.

(** The verb [%d] for an int: its decimal digits, after a minus sign for a
    negative one. *)
Definition verb_d (z : Z) : string := NilEmpty.string_of_int (Z.to_int z).

End fmt.

(** ** Package runtime/metrics *)

Module metrics.

Definition ValueKind : Type := Z.
Definition KindBad : ValueKind := 0.
Definition KindUint64 : ValueKind := 1.
Definition KindFloat64 : ValueKind := 2.
Definition KindFloat64Histogram : ValueKind := 3.

Module Description.
Record t : Type := mk {
  Name : string;
  Description : string;
  Kind : ValueKind;
  Cumulative : bool
}.
End Description.

Record Float64Histogram : Type := mkFloat64Histogram {
  Counts : list Z;
  Buckets : list float64
}.

(** A Value is tagged with its kind; a Value of kind KindFloat64Histogram
    points to its histogram. *)
Inductive Value : Type :=
| ValueBad
| ValueUint64 (u : Z)
| ValueFloat64 (f : float64)
| ValueFloat64Histogram (h : Float64Histogram).

Definition Value_Kind (v : Value) : ValueKind :=
  match v with
  | ValueBad => KindBad
  | ValueUint64 _ => KindUint64
  | ValueFloat64 _ => KindFloat64
  | ValueFloat64Histogram _ => KindFloat64Histogram
  end.

(** [v.Float64Histogram()] panics when the kind of [v] is not
    KindFloat64Histogram. *)
Definition Value_Float64Histogram (v : Value) : result Float64Histogram :=
  match v with
  | ValueFloat64Histogram h => Ok h
  | _ => Panic NotFloat64Histogram
  end.

Module Sample.
Record t : Type := mk {
  Name : string;
  Value : Value
}.
End Sample.

End metrics.

Import metrics.

(** ** The environment of one run

    What the generator reads from outside this file: the word size of the
    platform, the metrics of the running Go runtime, and the functions of the
    packages [prometheus/internal] and [prometheus] it calls. *)

Record Env : Type := mkEnv {
  (** size of int on the platform *)
  intSize : IntSize;
  (** [metrics.All()] *)
  All : list Description.t;
  (** the value [metrics.Read] stores in a sample of a given name
      ([ValueBad] for a name the runtime does not know) *)
  readValue : string -> Value;
  (** [internal.RuntimeMetricsBucketsForUnit] *)
  RuntimeMetricsBucketsForUnit : list float64 -> string -> list float64;
  (** [internal.RuntimeMetricsToProm]: namespace, subsystem, name, ok *)
  RuntimeMetricsToProm : Description.t -> string * string * string * bool;
  (** [prometheus.BuildFQName] *)
  BuildFQName : string -> string -> string -> string
}.

(** [metrics.Read(m)] populates the Value field of every sample of [m]. *)
Definition metrics_Read (env : Env) (m : list Sample.t) : list Sample.t :=
  map (fun s => Sample.mk (Sample.Name s) (readValue env (Sample.Name s))) m.

(** ** rmCardinality *)

Section Cardinality.

Variable env : Env.

Local Abbreviation sz := (intSize env).

(** Body of the loop over [metrics.All()]: a histogram gets a sample, any
    other description is counted. *)
Definition collectStep (st : list Sample.t * Z) (d : Description.t)
  : list Sample.t * Z :=
  let '(histograms, cardinality) := st in
  if Description.Kind d =? KindFloat64Histogram then
    (histograms ++ [Sample.mk (Description.Name d) ValueBad], cardinality)
  else
    (histograms, int.add sz cardinality 1).

Definition collectHistograms (ds : list Description.t) : list Sample.t * Z :=
  fold_left collectStep ds ([], 0).

(** [name[strings.IndexRune(name, ':')+1:]] *)
Definition unitOf (name : string) : result string :=
  strings.sliceFrom name (int.add sz (strings.IndexRune name ":"%char) 1).

(** The slice [buckets] of one iteration of the loop over [histograms]. *)
Definition bucketsOf (s : Sample.t) : result (list float64) :=
  let name := Sample.Name s in
  h <- Value_Float64Histogram (Sample.Value s) ;;
  u <- unitOf name ;;
  Ok (RuntimeMetricsBucketsForUnit env (Buckets h) u).

(** Body of the loop over [histograms]. *)
Definition histogramStep (cardinality : Z) (s : Sample.t) : result Z :=
  buckets <- bucketsOf s ;;
  let cardinality := int.add sz cardinality (int.add sz (len buckets) 3) in
  let cardinality := int.sub sz cardinality 1 in
  last <- indexAt buckets (int.sub sz (len buckets) 1) ;;
  let cardinality :=
    if float64_eq last (math.Inf 1) then int.sub sz cardinality 1
    else cardinality in
  first <- indexAt buckets 0 ;;
  let cardinality :=
    if float64_eq first (math.Inf (-1)) then int.sub sz cardinality 1
    else cardinality in
  Ok cardinality.

Fixpoint handleHistograms (histograms : list Sample.t) (cardinality : Z)
  : result Z :=
  match histograms with
  | [] => Ok cardinality
  | s :: rest =>
      cardinality <- histogramStep cardinality s ;;
      handleHistograms rest cardinality
  end.

Definition rmCardinality : result Z :=
  let '(histograms, cardinality) := collectHistograms (All env) in
  let histograms := metrics_Read env histograms in
  handleHistograms histograms cardinality.

(** ** The template testFile *)

(** The template function "rm2prom". *)
Definition rm2prom (d : Description.t) : string :=
  let '(ns, ss, n, ok) := RuntimeMetricsToProm env d in
  if negb ok then ""%string
  else BuildFQName env ns ss n.

(** The entries of [expectedRuntimeMetrics] the template writes for
    [.Descriptions]: one for each description whose translation is not
    the empty string. *)
Definition expectedRuntimeMetrics (ds : list Description.t)
  : list (string * string) :=
  flat_map (fun d =>
              let trans := rm2prom d in
              if String.eqb trans ""%string then []
              else [(Description.Name d, trans)]) ds.

(** What [main] hands to the template and the template writes out: the name
    table and [expectedRuntimeMetricsCardinality]. *)
Definition generate : result (list (string * string) * Z) :=
  cardinality <- rmCardinality ;;
  Ok (expectedRuntimeMetrics (All env), cardinality).

End Cardinality.

(** ** goVersion *)

(** [type goVersion int] *)
Definition goVersion : Type := Z.

(** [fmt.Sprintf("go1.%d", g)] *)
Definition goVersion_String (g : goVersion) : string :=
  ("go1." ++ fmt.verb_d g)%string.

(** [fmt.Sprintf("go1%d", g)] *)
Definition goVersion_Abbr (g : goVersion) : string :=
  ("go1" ++ fmt.verb_d g)%string.

(** The template function "nextVersion". *)
Definition nextVersion (sz : IntSize) (version : goVersion) : string :=
  goVersion_String (int.add sz version 1).

(** The name of the file [main] writes:
    [fmt.Sprintf("go_collector_metrics_%s_test.go", v.Abbr())]. *)
Definition fname (v : goVersion) : string :=
  ("go_collector_metrics_" ++ goVersion_Abbr v ++ "_test.go")%string.

(** ** The versions main compares *)

(** [givenVersion] of [main]: the argument when there is exactly one, else
    the version of the tool. *)
Definition givenVersion (args : list string) (toolVersion : string)
  : result string :=
  if negb (len args =? 2) then Ok toolVersion
  else indexAt args 1.

(** The string [main] parses as the given version:
    [strings.TrimPrefix(givenVersion, "go")]. *)
Definition givenVersionString (args : list string) (toolVersion : string)
  : result string :=
  given <- givenVersion args toolVersion ;;
  Ok (strings.TrimPrefix given "go").

(** The string [main] parses as the version of the tool:
    [strings.Split(strings.TrimPrefix(toolVersion, "go"), " ")[0]]. *)
Definition toolVersionString (toolVersion : string) : result string :=
  indexAt (strings.Split (strings.TrimPrefix toolVersion "go") " "%char) 0.

(** The slice [histograms] after [metrics.Read(histograms)]. *)
Definition histograms (env : Env) : list Sample.t :=
  metrics_Read env (fst (collectHistograms env (All env))).

(** ** The counting rule in the words of the design

    A histogram with boundaries [B] yields [len(B) + 3] series, minus one
    since boundaries are edges, minus one for a last boundary +Inf, minus one
    for a first boundary -Inf. *)

Definition isPosInf (b : float64) : bool := float64_eq b (S754_infinity false).
Definition isNegInf (b : float64) : bool := float64_eq b (S754_infinity true).

Definition histogramSeries (B : list float64) : Z :=
  len B + 3 - 1
  - (if isPosInf (last B S754_nan) then 1 else 0)
  - (if isNegInf (hd S754_nan B) then 1 else 0).

Definition isHistogram (d : Description.t) : bool :=
  Description.Kind d =? KindFloat64Histogram.

Definition isScalar (d : Description.t) : bool := negb (isHistogram d).

(** The series of a sample of [histograms], 0 when it has no buckets. *)
Definition sampleSeries (env : Env) (s : Sample.t) : Z :=
  match bucketsOf env s with
  | Ok B => histogramSeries B
  | Panic _ => 0
  end.

Definition sumZ (l : list Z) : Z := fold_right Z.add 0 l.

(** The sample appended for a histogram description. *)
Definition newSample (d : Description.t) : Sample.t :=
  Sample.mk (Description.Name d) ValueBad.

(** A sample the loop body handles without a panic. *)
Definition counted (env : Env) (s : Sample.t) : Prop :=
  exists B, bucketsOf env s = Ok B /\ B <> []
            /\ len B <= int.maxInt (intSize env).

(** ** The unit in the words of the design

    A name is [path/to/metric:unit]: the unit is the suffix of the name
    after its last [:] (the whole name when it has none). *)

Fixpoint countRune (r : ascii) (s : string) : nat :=
  match s with
  | EmptyString => O
  | String c s' => if Ascii.eqb c r then S (countRune r s') else countRune r s'
  end.

Fixpoint afterLastRune (r : ascii) (s : string) : string :=
  match s with
  | EmptyString => EmptyString
  | String c s' =>
      if 0 <=? strings.IndexRune s' r then afterLastRune r s'
      else if Ascii.eqb c r then s'
      else String c s'
  end.

(** A boundary that is a number. *)
Definition isFinite (b : float64) : bool :=
  match b with
  | S754_zero _ | S754_finite _ _ _ => true
  | S754_infinity _ | S754_nan => false
  end.

(** The boundaries of a value read for a histogram, [None] for a value
    that is not a histogram. *)
Definition bucketsView (v : Value) : option (list float64) :=
  match v with
  | ValueFloat64Histogram h => Some (Buckets h)
  | _ => None
  end.

(** Two runs see the same catalog and the same boundaries: the counts of the
    histograms and the values of the other metrics may differ. *)
Definition sameSnapshot (env1 env2 : Env) : Prop :=
  intSize env1 = intSize env2
  /\ All env1 = All env2
  /\ (forall d, In d (All env1) -> isHistogram d = true ->
        bucketsView (readValue env1 (Description.Name d))
        = bucketsView (readValue env2 (Description.Name d)))
  /\ (forall b u, RuntimeMetricsBucketsForUnit env1 b u
                  = RuntimeMetricsBucketsForUnit env2 b u).

(** The environment [env] with another naming table. *)
Definition withTranslator (env : Env)
  (toProm : Description.t -> string * string * string * bool)
  (fqName : string -> string -> string -> string) : Env :=
  mkEnv (intSize env) (All env) (readValue env)
        (RuntimeMetricsBucketsForUnit env) toProm fqName.

(** The environment [env] with another catalog. *)
Definition withCatalog (env : Env) (ds : list Description.t) : Env :=
  mkEnv (intSize env) ds (readValue env)
        (RuntimeMetricsBucketsForUnit env) (RuntimeMetricsToProm env)
        (BuildFQName env).

(** A description the template writes an entry for. *)
Definition translated (env : Env) (d : Description.t) : bool :=
  negb (String.eqb (rm2prom env d) "").

(** ** Sample runs *)

Module Examples.

Local Open Scope string_scope.

Definition one : float64 := S754_finite false 4503599627370496 (-52).
Definition five : float64 := S754_finite false 5629499534213120 (-50).
Definition ten : float64 := S754_finite false 5629499534213120 (-49).
Definition posInf : float64 := S754_infinity false.
Definition negInf : float64 := S754_infinity true.

Definition allocs : Description.t :=
  Description.mk "/gc/heap/allocs:bytes" "" KindUint64 true.
Definition latencies : Description.t :=
  Description.mk "/sched/latencies:seconds" "" KindFloat64Histogram false.
Definition goroutines : Description.t :=
  Description.mk "/sched/goroutines:goroutines" "" KindUint64 false.

(** Two scalars and one histogram. *)
Definition catalog : list Description.t := [allocs; latencies; goroutines].

Definition read (counts : list Z) (bs : list float64) (name : string) : Value :=
  if String.eqb name "/sched/latencies:seconds" then
    ValueFloat64Histogram (mkFloat64Histogram counts bs)
  else if String.eqb name "/gc/heap/allocs:bytes" then ValueUint64 4096
  else if String.eqb name "/sched/goroutines:goroutines" then ValueUint64 12
  else ValueBad.

(** Buckets left as they are, whatever the unit. *)
Definition keepBuckets (b : list float64) (_ : string) : list float64 := b.

(** A naming table with one entry. *)
Definition toProm (d : Description.t) : string * string * string * bool :=
  if String.eqb (Description.Name d) "/sched/goroutines:goroutines"
  then ("go", "sched", "goroutines_goroutines", true)
  else ("", "", "", false).

(** A naming table without entries. *)
Definition toNothing (_ : Description.t) : string * string * string * bool :=
  ("", "", "", false).

Definition fqName (ns ss n : string) : string := ns ++ "_" ++ ss ++ "_" ++ n.

Definition env (sz : IntSize) (counts : list Z) (bs : list float64) : Env :=
  mkEnv sz catalog (read counts bs) keepBuckets toProm fqName.

(** The sample of the histogram after [metrics.Read]. *)
Definition sample (counts : list Z) (bs : list float64) : Sample.t :=
  Sample.mk "/sched/latencies:seconds"
    (ValueFloat64Histogram (mkFloat64Histogram counts bs)).

(** A name with two colons, and buckets that depend on the unit. *)
Definition twoColons : Sample.t :=
  Sample.mk "/a:b:c" (ValueFloat64Histogram (mkFloat64Histogram [] [one])).

Definition dropForC (b : list float64) (u : string) : list float64 :=
  if String.eqb u "c" then [] else b.

Definition envUnits : Env :=
  mkEnv Int64 [] (fun _ => ValueBad) dropForC toProm fqName.

(** Descriptions of a kind that is no constant of the package. *)
Definition badKind : Description.t :=
  Description.mk "/x/bad:things" "" KindBad false.
Definition unknownKind : Description.t :=
  Description.mk "/x/unknown:things" "" 42 false.

End Examples.

(** * Facts *)

(** ** Arithmetic of int *)

Module IntFacts.

Lemma half_double sz : 2 ^ int.bits sz = 2 * 2 ^ (int.bits sz - 1).
Proof. destruct sz; reflexivity. Qed.

Lemma half_pos sz : 0 < 2 ^ (int.bits sz - 1).
Proof. destruct sz; reflexivity. Qed.

Lemma wrap_inRange sz z : int.inRange sz z -> int.wrap sz z = z.
Proof.
  unfold int.inRange, int.minInt, int.maxInt, int.wrap. intros H.
  pose proof (half_pos sz). rewrite half_double.
  rewrite Z.mod_small; lia.
Qed.

Lemma wrap_is_inRange sz z : int.inRange sz (int.wrap sz z).
Proof.
  unfold int.inRange, int.minInt, int.maxInt, int.wrap.
  pose proof (half_pos sz) as Hp. pose proof (half_double sz) as Hd.
  assert (Hm : 0 < 2 ^ int.bits sz) by lia.
  pose proof (Z.mod_pos_bound (z + 2 ^ (int.bits sz - 1)) _ Hm) as Hb.
  lia.
Qed.

Lemma wrap_add_l sz a b : int.wrap sz (int.wrap sz a + b) = int.wrap sz (a + b).
Proof.
  unfold int.wrap. f_equal.
  replace ((a + 2 ^ (int.bits sz - 1)) mod 2 ^ int.bits sz
           - 2 ^ (int.bits sz - 1) + b + 2 ^ (int.bits sz - 1))
    with ((a + 2 ^ (int.bits sz - 1)) mod 2 ^ int.bits sz + b) by lia.
  rewrite Zplus_mod_idemp_l. f_equal. lia.
Qed.

Lemma wrap_add_r sz a b : int.wrap sz (a + int.wrap sz b) = int.wrap sz (a + b).
Proof. rewrite (Z.add_comm a), wrap_add_l. f_equal. lia. Qed.

Lemma wrap_sub_l sz a b : int.wrap sz (int.wrap sz a - b) = int.wrap sz (a - b).
Proof. unfold Z.sub. apply wrap_add_l. Qed.

Lemma wrap_0 sz : int.wrap sz 0 = 0.
Proof. destruct sz; reflexivity. Qed.

Lemma add_exact sz a b : int.inRange sz (a + b) -> int.add sz a b = a + b.
Proof. apply wrap_inRange. Qed.

Lemma sub_exact sz a b : int.inRange sz (a - b) -> int.sub sz a b = a - b.
Proof. apply wrap_inRange. Qed.

End IntFacts.

(** Brings a chain of wrapping operations to one [int.wrap] of an exact
    expression. *)
Ltac int_norm :=
  unfold int.add, int.sub;
  repeat (rewrite_strat
            (bottomup (choice IntFacts.wrap_add_l
                         (choice IntFacts.wrap_add_r IntFacts.wrap_sub_l)))).

(** ** Indexing and slicing *)

Lemma len_nonneg {A : Type} (l : list A) : 0 <= len l.
Proof. unfold len. lia. Qed.

Lemma len_app {A : Type} (l1 l2 : list A) : len (l1 ++ l2) = len l1 + len l2.
Proof. unfold len. rewrite length_app. lia. Qed.

Lemma len_cons {A : Type} (a : A) (l : list A) : len (a :: l) = len l + 1.
Proof. unfold len. simpl List.length. lia. Qed.

Lemma indexAt_0 {A : Type} (l : list A) (d : A) :
  l <> [] -> indexAt l 0 = Ok (hd d l).
Proof.
  destruct l as [|a l]; [congruence|]. intros _.
  unfold indexAt. rewrite len_cons.
  pose proof (len_nonneg l).
  replace (0 <? len l + 1) with true by (symmetry; apply Z.ltb_lt; lia).
  reflexivity.
Qed.

Lemma nth_error_last {A : Type} (l : list A) (d : A) :
  l <> [] -> nth_error l (Nat.pred (List.length l)) = Some (last l d).
Proof.
  induction l as [|a l IH]; [congruence|]. intros _.
  destruct l as [|b l]; [reflexivity|].
  change (nth_error (b :: l) (Nat.pred (List.length (b :: l)))
          = Some (last (b :: l) d)).
  apply IH. discriminate.
Qed.

Lemma indexAt_last {A : Type} (l : list A) (d : A) :
  l <> [] -> indexAt l (len l - 1) = Ok (last l d).
Proof.
  intros Hne. unfold indexAt.
  assert (Hlen : 1 <= len l).
  { destruct l; [congruence|]. rewrite len_cons. pose proof (len_nonneg l). lia. }
  replace (0 <=? len l - 1) with true by (symmetry; apply Z.leb_le; lia).
  replace (len l - 1 <? len l) with true by (symmetry; apply Z.ltb_lt; lia).
  simpl andb.
  replace (Z.to_nat (len l - 1)) with (Nat.pred (List.length l))
    by (unfold len; lia).
  rewrite (nth_error_last l d Hne). reflexivity.
Qed.

Lemma indexAt_nil {A : Type} (i : Z) : indexAt (@nil A) i = Panic (IndexOutOfRange i 0).
Proof.
  unfold indexAt. change (len (@nil A)) with 0.
  destruct (0 <=? i) eqn:E1, (i <? 0) eqn:E2; try reflexivity.
  apply Z.leb_le in E1. apply Z.ltb_lt in E2. lia.
Qed.

Module StringsFacts.

Lemma IndexRune_bounds s r :
  -1 <= strings.IndexRune s r < strings.len s.
Proof.
  induction s as [|c s IH]; simpl.
  - unfold strings.len. simpl. lia.
  - unfold strings.len in *. simpl String.length.
    destruct (Ascii.eqb c r); [lia|].
    destruct (strings.IndexRune s r <? 0) eqn:E; [lia|].
    apply Z.ltb_ge in E. lia.
Qed.

Lemma IndexRune_absent_app s1 r s2 :
  strings.IndexRune s1 r = -1 ->
  strings.IndexRune (s1 ++ String r s2) r = strings.len s1.
Proof.
  induction s1 as [|c s1 IH]; simpl; intros H.
  - rewrite Ascii.eqb_refl. reflexivity.
  - destruct (Ascii.eqb c r); [discriminate|].
    pose proof (IndexRune_bounds s1 r) as Hb.
    destruct (strings.IndexRune s1 r <? 0) eqn:E.
    + apply Z.ltb_lt in E. rewrite IH by lia.
      unfold strings.len. simpl String.length.
      replace (Z.of_nat (String.length s1) <? 0) with false
        by (symmetry; apply Z.ltb_ge; lia).
      lia.
    + lia.
Qed.

Lemma drop_app s1 c s2 :
  strings.drop (S (String.length s1)) (s1 ++ String c s2) = s2.
Proof. induction s1 as [|a s1 IH]; simpl; [reflexivity|exact IH]. Qed.

End StringsFacts.

(** ** The unit of a histogram name *)

Lemma unitOf_ok env name :
  strings.len name <= int.maxInt (intSize env) ->
  unitOf env name
  = Ok (strings.drop (Z.to_nat (strings.IndexRune name ":"%char + 1)) name).
Proof.
  intros Hfit. unfold unitOf.
  pose proof (StringsFacts.IndexRune_bounds name ":"%char) as Hb.
  rewrite IntFacts.add_exact.
  - unfold strings.sliceFrom.
    replace (0 <=? strings.IndexRune name ":"%char + 1) with true
      by (symmetry; apply Z.leb_le; lia).
    replace (strings.IndexRune name ":"%char + 1 <=? strings.len name) with true
      by (symmetry; apply Z.leb_le; lia).
    reflexivity.
  - unfold int.inRange, int.minInt.
    pose proof (IntFacts.half_pos (intSize env)). lia.
Qed.

Lemma unitOf_first_colon env pre post :
  strings.len (pre ++ String ":"%char post) <= int.maxInt (intSize env) ->
  strings.IndexRune pre ":"%char = -1 ->
  unitOf env (pre ++ String ":"%char post) = Ok post.
Proof.
  intros Hfit Hno. rewrite (unitOf_ok _ _ Hfit).
  rewrite (StringsFacts.IndexRune_absent_app _ _ _ Hno).
  unfold strings.len.
  replace (Z.to_nat (Z.of_nat (String.length pre) + 1))
    with (S (String.length pre)) by lia.
  rewrite StringsFacts.drop_app. reflexivity.
Qed.

Lemma unitOf_no_colon env name :
  strings.len name <= int.maxInt (intSize env) ->
  strings.IndexRune name ":"%char = -1 ->
  unitOf env name = Ok name.
Proof.
  intros Hfit Hno. rewrite (unitOf_ok _ _ Hfit), Hno. reflexivity.
Qed.

(** ** One histogram *)

Lemma float64_eq_Inf_pos b : float64_eq b (math.Inf 1) = isPosInf b.
Proof. reflexivity. Qed.

Lemma float64_eq_Inf_neg b : float64_eq b (math.Inf (-1)) = isNegInf b.
Proof. reflexivity. Qed.

Lemma isPosInf_true b : isPosInf b = true <-> b = S754_infinity false.
Proof.
  split; [|intros ->; reflexivity].
  destruct b as [s|s| |s m e]; try destruct s; try discriminate; reflexivity.
Qed.

Lemma isNegInf_true b : isNegInf b = true <-> b = S754_infinity true.
Proof.
  split; [|intros ->; reflexivity].
  destruct b as [s|s| |s m e]; try destruct s; try discriminate; reflexivity.
Qed.

(** The loop body adds the series of the design to the running total. *)
Lemma histogramStep_series env c s B :
  bucketsOf env s = Ok B ->
  B <> [] ->
  len B <= int.maxInt (intSize env) ->
  histogramStep env c s = Ok (int.add (intSize env) c (histogramSeries B)).
Proof.
  intros HB Hne Hfit. unfold histogramStep. rewrite HB. simpl bind.
  assert (Hlen : 1 <= len B).
  { destruct B; [congruence|]. rewrite len_cons. pose proof (len_nonneg B). lia. }
  rewrite (IntFacts.sub_exact _ (len B) 1).
  2:{ unfold int.inRange, int.minInt.
      pose proof (IntFacts.half_pos (intSize env)). lia. }
  rewrite (indexAt_last B S754_nan Hne). simpl bind.
  rewrite (indexAt_0 B S754_nan Hne). simpl bind.
  rewrite float64_eq_Inf_pos, float64_eq_Inf_neg.
  unfold histogramSeries, float64 in *.
  destruct (isPosInf (last B S754_nan)), (isNegInf (hd S754_nan B));
    int_norm; do 2 f_equal; lia.
Qed.

(** Without buckets the loop body stops at [buckets[len(buckets)-1]]. *)
Lemma histogramStep_empty env c s :
  bucketsOf env s = Ok [] ->
  histogramStep env c s = Panic (IndexOutOfRange (-1) 0).
Proof.
  intros HB. unfold histogramStep. rewrite HB. simpl bind.
  rewrite indexAt_nil. simpl bind. change (len (@nil float64)) with 0.
  rewrite IntFacts.sub_exact; [reflexivity|].
  unfold int.inRange, int.minInt, int.maxInt.
  destruct (intSize env); simpl; lia.
Qed.

Lemma histogramStep_panic env c s p :
  bucketsOf env s = Panic p -> histogramStep env c s = Panic p.
Proof. intros H. unfold histogramStep. rewrite H. reflexivity. Qed.

(** ** The loop over the catalog *)

Lemma collectStep_histogram env hs c d :
  isHistogram d = true ->
  collectStep env (hs, c) d = (hs ++ [newSample d], c).
Proof. unfold isHistogram, collectStep. intros ->. reflexivity. Qed.

Lemma collectStep_other env hs c d :
  isHistogram d = false ->
  collectStep env (hs, c) d = (hs, int.add (intSize env) c 1).
Proof. unfold isHistogram, collectStep. intros ->. reflexivity. Qed.

Lemma fold_collectStep env ds : forall hs c,
  fold_left (collectStep env) ds (hs, int.wrap (intSize env) c)
  = (hs ++ map newSample (filter isHistogram ds),
     int.wrap (intSize env) (c + len (filter isScalar ds))).
Proof.
  induction ds as [|d ds IH]; intros hs c; cbn [fold_left].
  - simpl. rewrite app_nil_r. f_equal. f_equal. unfold len. simpl. lia.
  - unfold isScalar. simpl filter. destruct (isHistogram d) eqn:E.
    + rewrite (collectStep_histogram _ _ _ _ E), IH. simpl negb. cbv iota.
      rewrite <- app_assoc. reflexivity.
    + rewrite (collectStep_other _ _ _ _ E). unfold int.add.
      rewrite IntFacts.wrap_add_l, IH. simpl negb. cbv iota.
      rewrite len_cons. f_equal. f_equal. fold isScalar. lia.
Qed.

Lemma collectHistograms_eq env ds :
  collectHistograms env ds
  = (map newSample (filter isHistogram ds),
     int.wrap (intSize env) (len (filter isScalar ds))).
Proof.
  unfold collectHistograms.
  rewrite <- (IntFacts.wrap_0 (intSize env)) at 1.
  rewrite fold_collectStep. reflexivity.
Qed.

Lemma histograms_eq env :
  histograms env
  = map (fun d => Sample.mk (Description.Name d)
                    (readValue env (Description.Name d)))
      (filter isHistogram (All env)).
Proof.
  unfold histograms, metrics_Read. rewrite collectHistograms_eq. simpl fst.
  rewrite map_map. reflexivity.
Qed.

Lemma rmCardinality_eq env :
  rmCardinality env
  = handleHistograms env (histograms env)
      (int.wrap (intSize env) (len (filter isScalar (All env)))).
Proof.
  unfold rmCardinality, histograms.
  rewrite collectHistograms_eq. reflexivity.
Qed.

(** ** The loop over the histograms *)

Lemma histogramStep_counted env c s :
  counted env s ->
  histogramStep env c s = Ok (int.add (intSize env) c (sampleSeries env s)).
Proof.
  intros (B & HB & Hne & Hfit). unfold sampleSeries. rewrite HB.
  now apply histogramStep_series.
Qed.

Lemma handleHistograms_counted env hs : forall c,
  Forall (counted env) hs ->
  handleHistograms env hs (int.wrap (intSize env) c)
  = Ok (int.wrap (intSize env) (c + sumZ (map (sampleSeries env) hs))).
Proof.
  induction hs as [|s hs IH]; intros c Hall; simpl.
  - do 2 f_equal. lia.
  - inversion Hall as [|? ? Hs Hrest]; subst.
    rewrite (histogramStep_counted _ _ _ Hs). simpl bind. unfold int.add.
    rewrite IntFacts.wrap_add_l, (IH _ Hrest). do 2 f_equal. lia.
Qed.

(** The total: one for each description that is not a histogram, and the
    series of each histogram. *)
Lemma rmCardinality_total env :
  Forall (counted env) (histograms env) ->
  rmCardinality env
  = Ok (int.wrap (intSize env)
          (len (filter isScalar (All env))
           + sumZ (map (sampleSeries env) (histograms env)))).
Proof.
  intros Hall. rewrite rmCardinality_eq. now apply handleHistograms_counted.
Qed.

(** A panic of the loop body ends the loop. *)
Lemma handleHistograms_panic env hs : forall c s,
  In s hs ->
  (forall c', exists p, histogramStep env c' s = Panic p) ->
  exists p, handleHistograms env hs c = Panic p.
Proof.
  induction hs as [|s0 hs IH]; intros c s Hin Hs; [contradiction|].
  simpl. destruct (histogramStep env c s0) as [c1|p] eqn:E.
  - simpl bind. destruct Hin as [->|Hin].
    + destruct (Hs c) as [p Hp]. congruence.
    + exact (IH c1 s Hin Hs).
  - exists p. reflexivity.
Qed.

(** The loop raises no panic that its body does not raise. *)
Lemma handleHistograms_panic_inv env hs : forall c p,
  handleHistograms env hs c = Panic p ->
  exists s c', In s hs /\ histogramStep env c' s = Panic p.
Proof.
  induction hs as [|s0 hs IH]; intros c p H; simpl in H; [discriminate|].
  destruct (histogramStep env c s0) as [c1|p1] eqn:E; simpl in H.
  - destruct (IH _ _ H) as (s & c' & Hin & Hp).
    exists s, c'. split; [now right|exact Hp].
  - injection H as <-. exists s0, c. split; [now left|exact E].
Qed.

(** * The cardinality of histograms *)

Lemma handleHistograms_app env (hs1 hs2 : list Sample.t) : forall c,
  handleHistograms env (hs1 ++ hs2) c
  = (c' <- handleHistograms env hs1 c ;; handleHistograms env hs2 c').
Proof.
  induction hs1 as [|s hs1 IH]; intros c; simpl; [reflexivity|].
  destruct (histogramStep env c s) as [c1|p]; simpl; [apply IH|reflexivity].
Qed.

(** C1: in a run in which every histogram has buckets, the loop over the
    histograms adds, for every histogram of the catalog with adjusted
    boundaries [B], [len(B) + 3 - 1], minus one more if the last element of
    [B] is +Inf and minus one more if the first element of [B] is -Inf, to
    the running total: the total after the iteration of the histogram is the
    total before it plus this contribution, and [rmCardinality] returns the
    number of the other descriptions plus the contributions of all
    histograms.  (Totals are ints, and the length of a slice is an int.) *)
Theorem histogram_contribution_added env (pre post : list Sample.t)
  (s : Sample.t) (B : list float64) :
  Forall (counted env) (histograms env) ->
  histograms env = pre ++ s :: post ->
  bucketsOf env s = Ok B ->
  exists before,
    handleHistograms env pre (snd (collectHistograms env (All env)))
    = Ok before
    /\ handleHistograms env (pre ++ [s])
         (snd (collectHistograms env (All env)))
       = Ok (int.add (intSize env) before
               (len B + 3 - 1
                - (if float64_eq (last B S754_nan) (math.Inf 1) then 1 else 0)
                - (if float64_eq (hd S754_nan B) (math.Inf (-1))
                   then 1 else 0)))
    /\ rmCardinality env
       = Ok (int.wrap (intSize env)
               (len (filter isScalar (All env))
                + sumZ (map (fun s' =>
                               match bucketsOf env s' with
                               | Ok B' =>
                                   len B' + 3 - 1
                                   - (if float64_eq (last B' S754_nan)
                                           (math.Inf 1) then 1 else 0)
                                   - (if float64_eq (hd S754_nan B')
                                           (math.Inf (-1)) then 1 else 0)
                               | Panic _ => 0
                               end) (histograms env)))).
Proof.
  intros Hall Hsplit HB.
  assert (Hparts : Forall (counted env) pre /\ counted env s).
  { rewrite Hsplit in Hall. apply Forall_app in Hall. destruct Hall as [Hpre Hrest].
    inversion Hrest; subst. now split. }
  destruct Hparts as [Hpre (B' & HB' & Hne & Hfit)].
  assert (B' = B) by congruence. subst B'.
  rewrite collectHistograms_eq. cbn [snd].
  exists (int.wrap (intSize env)
            (len (filter isScalar (All env))
             + sumZ (map (sampleSeries env) pre))).
  split; [now apply handleHistograms_counted|]. split.
  - rewrite handleHistograms_app, (handleHistograms_counted env pre _ Hpre).
    simpl bind. simpl handleHistograms.
    rewrite (histogramStep_series env _ s B HB Hne Hfit). reflexivity.
  - exact (rmCardinality_total env Hall).
Qed.

Lemma histogram_contribution_added_witness :
  exists before,
    handleHistograms
      (withCatalog
         (Examples.env Int64 [3; 4]
            [Examples.negInf; Examples.one; Examples.posInf])
         [Examples.allocs; Examples.latencies; Examples.latencies])
      [Examples.sample [3; 4]
         [Examples.negInf; Examples.one; Examples.posInf]]
      (snd (collectHistograms
              (withCatalog
                 (Examples.env Int64 [3; 4]
                    [Examples.negInf; Examples.one; Examples.posInf])
                 [Examples.allocs; Examples.latencies; Examples.latencies])
              [Examples.allocs; Examples.latencies; Examples.latencies]))
    = Ok before
    /\ handleHistograms
         (withCatalog
            (Examples.env Int64 [3; 4]
               [Examples.negInf; Examples.one; Examples.posInf])
            [Examples.allocs; Examples.latencies; Examples.latencies])
         ([Examples.sample [3; 4]
             [Examples.negInf; Examples.one; Examples.posInf]]
          ++ [Examples.sample [3; 4]
                [Examples.negInf; Examples.one; Examples.posInf]])
         (snd (collectHistograms
                 (withCatalog
                    (Examples.env Int64 [3; 4]
                       [Examples.negInf; Examples.one; Examples.posInf])
                    [Examples.allocs; Examples.latencies; Examples.latencies])
                 [Examples.allocs; Examples.latencies; Examples.latencies]))
       = Ok (int.add Int64 before (3 + 3 - 1 - 1 - 1))
    /\ rmCardinality
         (withCatalog
            (Examples.env Int64 [3; 4]
               [Examples.negInf; Examples.one; Examples.posInf])
            [Examples.allocs; Examples.latencies; Examples.latencies])
       = Ok 7.
Proof.
  apply (histogram_contribution_added
           (withCatalog
              (Examples.env Int64 [3; 4]
                 [Examples.negInf; Examples.one; Examples.posInf])
              [Examples.allocs; Examples.latencies; Examples.latencies])
           [Examples.sample [3; 4]
              [Examples.negInf; Examples.one; Examples.posInf]]
           []
           (Examples.sample [3; 4]
              [Examples.negInf; Examples.one; Examples.posInf])
           [Examples.negInf; Examples.one; Examples.posInf]).
  - constructor; [|constructor; [|constructor]];
      (exists [Examples.negInf; Examples.one; Examples.posInf];
       split; [reflexivity|]; split; [discriminate|vm_compute; discriminate]).
  - reflexivity.
  - reflexivity.
Defined.

Lemma last_cons_snoc {A : Type} (a b d : A) (l : list A) :
  last (a :: l ++ [b]) d = b.
Proof. change (a :: l ++ [b]) with ((a :: l) ++ [b]). apply last_last. Qed.

(** The claim C2 as it is written, with [n + 3], fails for the boundaries
    [-Inf, 1, +Inf]: they add 3 series, not 4. *)
Lemma both_infinities_n_plus_3_fails :
  ~ (forall env c s (bs : list float64) n,
        bucketsOf env s
        = Ok (S754_infinity true :: bs ++ [S754_infinity false]) ->
        forallb isFinite bs = true ->
        len bs = n ->
        len (S754_infinity true :: bs ++ [S754_infinity false])
        <= int.maxInt (intSize env) ->
        histogramStep env c s = Ok (int.add (intSize env) c (n + 3))).
Proof.
  intros H.
  specialize (H (Examples.env Int64 []
                   [Examples.negInf; Examples.one; Examples.posInf])
                0
                (Examples.sample []
                   [Examples.negInf; Examples.one; Examples.posInf])
                [Examples.one] 1
                eq_refl eq_refl eq_refl).
  assert (Hfit : len [Examples.negInf; Examples.one; Examples.posInf]
                 <= int.maxInt Int64) by (vm_compute; discriminate).
  specialize (H Hfit). vm_compute in H. discriminate H.
Qed.

(** C2, amended: boundaries [-Inf, b1, ..., bn, +Inf] add
    [(n+2) + 3 - 1 - 1 - 1 = n + 2] series. *)
Theorem both_infinities_contribution env c s (bs : list float64) n :
  bucketsOf env s = Ok (S754_infinity true :: bs ++ [S754_infinity false]) ->
  len bs = n ->
  len (S754_infinity true :: bs ++ [S754_infinity false])
  <= int.maxInt (intSize env) ->
  histogramStep env c s = Ok (int.add (intSize env) c (n + 2)).
Proof.
  intros HB Hn Hfit.
  rewrite (histogramStep_series env c s _ HB); [|discriminate|exact Hfit].
  unfold histogramSeries. rewrite last_cons_snoc. simpl hd.
  rewrite len_cons, len_app. change (len [S754_infinity false]) with 1.
  change (isPosInf (S754_infinity false)) with true.
  change (isNegInf (S754_infinity true)) with true.
  cbv iota. do 2 f_equal. lia.
Qed.

Lemma both_infinities_contribution_witness :
  histogramStep
    (Examples.env Int32 []
       [Examples.negInf; Examples.one; Examples.five; Examples.posInf])
    2
    (Examples.sample []
       [Examples.negInf; Examples.one; Examples.five; Examples.posInf])
  = Ok (int.add Int32 2 (2 + 2)).
Proof.
  apply (both_infinities_contribution
           (Examples.env Int32 []
              [Examples.negInf; Examples.one; Examples.five; Examples.posInf])
           2
           (Examples.sample []
              [Examples.negInf; Examples.one; Examples.five; Examples.posInf])
           [Examples.one; Examples.five] 2).
  - reflexivity.
  - reflexivity.
  - vm_compute. discriminate.
Defined.

Lemma no_infinity_last (B : list float64) :
  B <> [] ->
  forallb (fun b => negb (isPosInf b) && negb (isNegInf b)) B = true ->
  isPosInf (last B S754_nan) = false.
Proof.
  induction B as [|a B IH]; [congruence|]. intros _ H.
  simpl forallb in H. apply andb_true_iff in H. destruct H as [Ha HB].
  destruct B as [|b B].
  - simpl. apply andb_true_iff in Ha. destruct Ha as [Ha _].
    now apply negb_true_iff in Ha.
  - change (last (a :: b :: B) S754_nan) with (last (b :: B) S754_nan).
    apply IH; [discriminate|exact HB].
Qed.

Lemma no_infinity_first (B : list float64) :
  B <> [] ->
  forallb (fun b => negb (isPosInf b) && negb (isNegInf b)) B = true ->
  isNegInf (hd S754_nan B) = false.
Proof.
  destruct B as [|a B]; [congruence|]. intros _ H.
  simpl forallb in H. apply andb_true_iff in H. destruct H as [Ha _].
  apply andb_true_iff in Ha. destruct Ha as [_ Ha].
  now apply negb_true_iff in Ha.
Qed.

(** C5: boundaries that contain neither -Inf nor +Inf add
    [len(boundaries) + 2] series, that is [n + 3] for the [n + 1] boundaries
    [b0, ..., bn]. *)
Theorem no_infinity_contribution env c s (B : list float64) n :
  bucketsOf env s = Ok B ->
  len B = n + 1 ->
  0 <= n ->
  len B <= int.maxInt (intSize env) ->
  forallb (fun b => negb (float64_eq b (math.Inf 1))
                    && negb (float64_eq b (math.Inf (-1)))) B = true ->
  histogramStep env c s = Ok (int.add (intSize env) c (len B + 2))
  /\ histogramStep env c s = Ok (int.add (intSize env) c (n + 3)).
Proof.
  intros HB Hn Hn0 Hfit Hfin.
  assert (Hne : B <> []).
  { intros ->. change (len (@nil float64)) with 0 in Hn. lia. }
  assert (E : histogramStep env c s = Ok (int.add (intSize env) c (len B + 2))).
  { rewrite (histogramStep_series env c s B HB Hne Hfit).
    unfold histogramSeries.
    rewrite (no_infinity_last B Hne Hfin), (no_infinity_first B Hne Hfin).
    do 2 f_equal. lia. }
  split; [exact E|]. rewrite E. do 2 f_equal. lia.
Qed.

Lemma no_infinity_contribution_witness :
  histogramStep
    (Examples.env Int64 [] [Examples.one; Examples.five; Examples.ten]) 2
    (Examples.sample [] [Examples.one; Examples.five; Examples.ten])
  = Ok (int.add Int64 2
          (len [Examples.one; Examples.five; Examples.ten] + 2))
  /\ histogramStep
       (Examples.env Int64 [] [Examples.one; Examples.five; Examples.ten]) 2
       (Examples.sample [] [Examples.one; Examples.five; Examples.ten])
     = Ok (int.add Int64 2 (2 + 3)).
Proof.
  apply (no_infinity_contribution
           (Examples.env Int64 [] [Examples.one; Examples.five; Examples.ten])
           2
           (Examples.sample [] [Examples.one; Examples.five; Examples.ten])
           [Examples.one; Examples.five; Examples.ten] 2).
  - reflexivity.
  - reflexivity.
  - lia.
  - vm_compute. discriminate.
  - reflexivity.
Defined.

(** * The cardinality of scalars *)

Lemma scalars_by_kind (ds ds' : list Description.t) :
  map Description.Kind ds' = map Description.Kind ds ->
  len (filter isScalar ds') = len (filter isScalar ds).
Proof.
  revert ds'. induction ds as [|d ds IH]; intros [|d' ds'] H;
    try discriminate; [reflexivity|].
  simpl in H. injection H as Hk Hrest.
  assert (E : isScalar d' = isScalar d)
    by (unfold isScalar, isHistogram; rewrite Hk; reflexivity).
  simpl filter. rewrite E.
  destruct (isScalar d); rewrite ?len_cons, (IH ds' Hrest); reflexivity.
Qed.

Lemma len_filter_le {A : Type} (f : A -> bool) (l : list A) :
  len (filter f l) <= len l.
Proof.
  induction l as [|a l IH]; simpl; [lia|].
  destruct (f a); rewrite ?len_cons; lia.
Qed.

(** C4: after the loop over a catalog, the running total is the number of its
    scalar descriptions (those that are no histogram); it is the same for a
    catalog whose descriptions have the same kinds under other names and
    units. *)
Theorem scalars_counted_once env (ds ds' : list Description.t) :
  len ds <= int.maxInt (intSize env) ->
  map Description.Kind ds' = map Description.Kind ds ->
  snd (collectHistograms env ds) = len (filter isScalar ds)
  /\ snd (collectHistograms env ds') = snd (collectHistograms env ds).
Proof.
  intros Hfit Hk. rewrite !collectHistograms_eq. cbn [snd].
  rewrite (scalars_by_kind ds ds' Hk). split; [|reflexivity].
  apply IntFacts.wrap_inRange. unfold int.inRange, int.minInt.
  pose proof (len_filter_le isScalar ds).
  pose proof (len_nonneg (filter isScalar ds)).
  pose proof (IntFacts.half_pos (intSize env)). lia.
Qed.

Lemma scalars_counted_once_witness :
  snd (collectHistograms (Examples.env Int64 [] [Examples.one])
         Examples.catalog)
  = len (filter isScalar Examples.catalog)
  /\ snd (collectHistograms (Examples.env Int64 [] [Examples.one])
            [Examples.goroutines; Examples.latencies; Examples.allocs])
     = snd (collectHistograms (Examples.env Int64 [] [Examples.one])
              Examples.catalog).
Proof.
  apply (scalars_counted_once
           (Examples.env Int64 [] [Examples.one])
           Examples.catalog
           [Examples.goroutines; Examples.latencies; Examples.allocs]).
  - vm_compute. discriminate.
  - reflexivity.
Defined.

Lemma collectHistograms_snoc env (ds : list Description.t) (d : Description.t) :
  collectHistograms env (ds ++ [d])
  = collectStep env (collectHistograms env ds) d.
Proof. unfold collectHistograms. rewrite fold_left_app. reflexivity. Qed.

Lemma filter_not_histogram (ds : list Description.t) :
  filter (fun d => negb (Description.Kind d =? KindFloat64Histogram)) ds
  = filter isScalar ds.
Proof. reflexivity. Qed.

(** C10: in the loop over the catalog, every description of a kind other
    than KindFloat64Histogram, also KindBad or a kind that is no constant of
    the package, gets no sample and adds exactly one to the running total;
    the loop ends with the number of all such descriptions, and this is the
    total with which [rmCardinality] goes on to the histograms.  (The length
    of the catalog is an int.) *)
Theorem other_kinds_add_one env (pre post : list Description.t)
  (d : Description.t) :
  All env = pre ++ d :: post ->
  Description.Kind d <> KindFloat64Histogram ->
  len (All env) <= int.maxInt (intSize env) ->
  collectHistograms env (pre ++ [d])
  = (fst (collectHistograms env pre), snd (collectHistograms env pre) + 1)
  /\ snd (collectHistograms env (All env))
     = len (filter (fun d' =>
                      negb (Description.Kind d' =? KindFloat64Histogram)) pre)
       + 1
       + len (filter (fun d' =>
                        negb (Description.Kind d' =? KindFloat64Histogram))
                post)
  /\ rmCardinality env
     = handleHistograms env (histograms env)
         (len (filter (fun d' =>
                         negb (Description.Kind d' =? KindFloat64Histogram))
                 (All env))).
Proof.
  intros Hsplit Hk Hfit.
  assert (Hd : isHistogram d = false)
    by (unfold isHistogram; now apply Z.eqb_neq).
  assert (Hscalar : isScalar d = true) by (unfold isScalar; now rewrite Hd).
  assert (Hall : len (filter isScalar (All env))
                 = len (filter isScalar pre) + 1 + len (filter isScalar post)).
  { rewrite Hsplit, filter_app, len_app. simpl filter.
    rewrite Hscalar, len_cons. lia. }
  assert (Hsum : len pre + 1 + len post <= int.maxInt (intSize env)).
  { rewrite Hsplit, len_app, len_cons in Hfit.
    apply Z.le_trans with (2 := Hfit). apply Z.eq_le_incl. ring. }
  assert (Hrange : forall a b,
             0 <= a <= len pre -> 0 <= b <= len post ->
             int.inRange (intSize env) a
             /\ int.inRange (intSize env) (a + 1)
             /\ int.inRange (intSize env) (a + 1 + b)).
  { clear - Hsum. intros a b Ha Hb. unfold int.inRange, int.minInt.
    pose proof (IntFacts.half_pos (intSize env)). lia. }
  destruct (Hrange (len (filter isScalar pre)) (len (filter isScalar post)))
    as (R1 & R2 & R3).
  { split; [apply len_nonneg|apply len_filter_le]. }
  { split; [apply len_nonneg|apply len_filter_le]. }
  rewrite (filter_not_histogram pre), (filter_not_histogram post),
    (filter_not_histogram (All env)).
  split; [|split].
  - rewrite collectHistograms_snoc.
    destruct (collectHistograms env pre) as [hs c] eqn:E.
    rewrite (collectStep_other env hs c d Hd). cbn [fst snd]. f_equal.
    assert (Hc : c = int.wrap (intSize env) (len (filter isScalar pre))).
    { pose proof (collectHistograms_eq env pre) as E'. rewrite E in E'.
      now injection E'. }
    rewrite Hc. unfold int.add. rewrite IntFacts.wrap_add_l.
    now rewrite (IntFacts.wrap_inRange _ _ R1), (IntFacts.wrap_inRange _ _ R2).
  - rewrite collectHistograms_eq. cbn [snd]. rewrite Hall.
    exact (IntFacts.wrap_inRange _ _ R3).
  - rewrite rmCardinality_eq. f_equal. rewrite Hall.
    exact (IntFacts.wrap_inRange _ _ R3).
Qed.

Lemma other_kinds_add_one_witness :
  collectHistograms
    (withCatalog (Examples.env Int32 [] [Examples.one])
       [Examples.badKind; Examples.latencies; Examples.unknownKind])
    ([Examples.badKind; Examples.latencies] ++ [Examples.unknownKind])
  = (fst (collectHistograms
            (withCatalog (Examples.env Int32 [] [Examples.one])
               [Examples.badKind; Examples.latencies; Examples.unknownKind])
            [Examples.badKind; Examples.latencies]),
     snd (collectHistograms
            (withCatalog (Examples.env Int32 [] [Examples.one])
               [Examples.badKind; Examples.latencies; Examples.unknownKind])
            [Examples.badKind; Examples.latencies]) + 1)
  /\ snd (collectHistograms
            (withCatalog (Examples.env Int32 [] [Examples.one])
               [Examples.badKind; Examples.latencies; Examples.unknownKind])
            (All (withCatalog (Examples.env Int32 [] [Examples.one])
                    [Examples.badKind; Examples.latencies;
                     Examples.unknownKind])))
     = len (filter (fun d' =>
                      negb (Description.Kind d' =? KindFloat64Histogram))
              [Examples.badKind; Examples.latencies])
       + 1
       + len (filter (fun d' =>
                        negb (Description.Kind d' =? KindFloat64Histogram))
                (@nil Description.t))
  /\ rmCardinality
       (withCatalog (Examples.env Int32 [] [Examples.one])
          [Examples.badKind; Examples.latencies; Examples.unknownKind])
     = handleHistograms
         (withCatalog (Examples.env Int32 [] [Examples.one])
            [Examples.badKind; Examples.latencies; Examples.unknownKind])
         (histograms
            (withCatalog (Examples.env Int32 [] [Examples.one])
               [Examples.badKind; Examples.latencies; Examples.unknownKind]))
         (len (filter (fun d' =>
                         negb (Description.Kind d' =? KindFloat64Histogram))
                 (All (withCatalog (Examples.env Int32 [] [Examples.one])
                         [Examples.badKind; Examples.latencies;
                          Examples.unknownKind])))).
Proof.
  apply (other_kinds_add_one
           (withCatalog (Examples.env Int32 [] [Examples.one])
              [Examples.badKind; Examples.latencies; Examples.unknownKind])
           [Examples.badKind; Examples.latencies] []
           Examples.unknownKind).
  - reflexivity.
  - vm_compute. discriminate.
  - vm_compute. discriminate.
Defined.

(** * Whole runs *)

(** C3: for a catalog of two scalars and one histogram, the total is 7 both
    when the boundaries of the histogram are [1, 5, 10] and when they are
    [-Inf, 1, 5, 10, +Inf]; in both cases the histogram alone counts 5. *)
Theorem two_scalars_one_histogram env (dh : Description.t) (B : list float64) :
  filter isHistogram (All env) = [dh] ->
  len (filter isScalar (All env)) = 2 ->
  bucketsOf env (Sample.mk (Description.Name dh)
                   (readValue env (Description.Name dh))) = Ok B ->
  B = [Examples.one; Examples.five; Examples.ten]
  \/ B = [S754_infinity true; Examples.one; Examples.five; Examples.ten;
          S754_infinity false] ->
  histogramStep env 0 (Sample.mk (Description.Name dh)
                         (readValue env (Description.Name dh))) = Ok 5
  /\ rmCardinality env = Ok 7.
Proof.
  intros Hh Hs HB HBs.
  assert (Hser : histogramSeries B = 5) by (destruct HBs; subst B; reflexivity).
  assert (Hne : B <> []) by (destruct HBs; subst B; discriminate).
  assert (Hfit : len B <= int.maxInt (intSize env))
    by (destruct HBs; subst B; destruct (intSize env); vm_compute; discriminate).
  split.
  - rewrite (histogramStep_series env 0 _ B HB Hne Hfit), Hser.
    destruct (intSize env); reflexivity.
  - rewrite rmCardinality_total.
    + rewrite histograms_eq, Hh, Hs. simpl map. unfold sampleSeries.
      rewrite HB, Hser. destruct (intSize env); reflexivity.
    + rewrite histograms_eq, Hh. simpl map.
      constructor; [|constructor]. exists B. auto.
Qed.

Lemma two_scalars_one_histogram_witness :
  (histogramStep
     (Examples.env Int64 [0; 0] [Examples.one; Examples.five; Examples.ten]) 0
     (Sample.mk (Description.Name Examples.latencies)
        (readValue
           (Examples.env Int64 [0; 0]
              [Examples.one; Examples.five; Examples.ten])
           (Description.Name Examples.latencies))) = Ok 5
   /\ rmCardinality
        (Examples.env Int64 [0; 0] [Examples.one; Examples.five; Examples.ten])
      = Ok 7)
  /\ rmCardinality
       (Examples.env Int32 [0; 0; 0; 0]
          [S754_infinity true; Examples.one; Examples.five; Examples.ten;
           S754_infinity false])
     = Ok 7.
Proof.
  split.
  - apply (two_scalars_one_histogram
             (Examples.env Int64 [0; 0]
                [Examples.one; Examples.five; Examples.ten])
             Examples.latencies
             [Examples.one; Examples.five; Examples.ten]).
    + reflexivity.
    + reflexivity.
    + reflexivity.
    + left. reflexivity.
  - apply (two_scalars_one_histogram
             (Examples.env Int32 [0; 0; 0; 0]
                [S754_infinity true; Examples.one; Examples.five; Examples.ten;
                 S754_infinity false])
             Examples.latencies
             [S754_infinity true; Examples.one; Examples.five; Examples.ten;
              S754_infinity false]).
    + reflexivity.
    + reflexivity.
    + reflexivity.
    + right. reflexivity.
Defined.

(** * The unit handed to RuntimeMetricsBucketsForUnit *)

(** A name with two colons, which is no name of runtime/metrics: the buckets
    of ["/a:b:c"] are adjusted for the unit ["b:c"], the text after the first
    colon, so the unit is not what follows the last colon of every string. *)
Lemma two_colons_unit_is_after_first :
  ~ (forall env s h pre u,
        Sample.Value s = ValueFloat64Histogram h ->
        strings.len (Sample.Name s) <= int.maxInt (intSize env) ->
        Sample.Name s = (pre ++ String ":"%char u)%string ->
        strings.IndexRune u ":"%char = -1 ->
        bucketsOf env s
        = Ok (RuntimeMetricsBucketsForUnit env (Buckets h) u)).
Proof.
  intros H.
  specialize (H Examples.envUnits Examples.twoColons
                (mkFloat64Histogram [] [Examples.one])
                "/a:b"%string "c"%string eq_refl).
  assert (Hfit : strings.len (Sample.Name Examples.twoColons)
                 <= int.maxInt (intSize Examples.envUnits))
    by (vm_compute; discriminate).
  specialize (H Hfit eq_refl eq_refl). vm_compute in H. discriminate H.
Qed.

(** For any name, the unit is what follows the first colon. *)
Theorem unit_after_first_colon env s h pre u :
  Sample.Value s = ValueFloat64Histogram h ->
  strings.len (Sample.Name s) <= int.maxInt (intSize env) ->
  Sample.Name s = (pre ++ String ":"%char u)%string ->
  strings.IndexRune pre ":"%char = -1 ->
  unitOf env (Sample.Name s) = Ok u
  /\ bucketsOf env s = Ok (RuntimeMetricsBucketsForUnit env (Buckets h) u).
Proof.
  intros Hv Hfit Hname Hpre.
  assert (Hu : unitOf env (Sample.Name s) = Ok u).
  { rewrite Hname in Hfit |- *. now apply unitOf_first_colon. }
  split; [exact Hu|].
  unfold bucketsOf. rewrite Hv. simpl bind. rewrite Hu. reflexivity.
Qed.

Lemma unit_after_first_colon_witness :
  unitOf Examples.envUnits (Sample.Name Examples.twoColons) = Ok "b:c"%string
  /\ bucketsOf Examples.envUnits Examples.twoColons
     = Ok (RuntimeMetricsBucketsForUnit Examples.envUnits
             (Buckets (mkFloat64Histogram [] [Examples.one])) "b:c"%string).
Proof.
  apply (unit_after_first_colon Examples.envUnits Examples.twoColons
           (mkFloat64Histogram [] [Examples.one]) "/a"%string "b:c"%string).
  - reflexivity.
  - vm_compute. discriminate.
  - reflexivity.
  - reflexivity.
Defined.

Lemma countRune_0_IndexRune (r : ascii) : forall s : string,
  countRune r s = O -> strings.IndexRune s r = -1.
Proof.
  induction s as [|c s IH]; simpl; [reflexivity|].
  destruct (Ascii.eqb c r); [discriminate|].
  intros H. rewrite (IH H). reflexivity.
Qed.

(** With at most one [r] in [s], what follows the first [r] is what follows
    the last. *)
Lemma drop_first_is_afterLast (r : ascii) : forall s : string,
  (countRune r s <= 1)%nat ->
  strings.drop (Z.to_nat (strings.IndexRune s r + 1)) s = afterLastRune r s.
Proof.
  induction s as [|c s IH]; simpl; intros Hcount; [reflexivity|].
  pose proof (StringsFacts.IndexRune_bounds s r) as Hb.
  destruct (Ascii.eqb c r) eqn:Ec.
  - assert (H0 : countRune r s = O) by lia.
    rewrite (countRune_0_IndexRune r s H0). reflexivity.
  - specialize (IH Hcount).
    destruct (strings.IndexRune s r <? 0) eqn:Elt.
    + apply Z.ltb_lt in Elt.
      replace (0 <=? strings.IndexRune s r) with false
        by (symmetry; apply Z.leb_gt; lia).
      reflexivity.
    + apply Z.ltb_ge in Elt.
      replace (0 <=? strings.IndexRune s r) with true
        by (symmetry; apply Z.leb_le; lia).
      replace (Z.to_nat (strings.IndexRune s r + 1 + 1))
        with (S (Z.to_nat (strings.IndexRune s r + 1))) by lia.
      exact IH.
Qed.

(** C6: for every histogram whose name has the form [path:unit] of
    runtime/metrics, with one colon (or none), the unit string for which its
    bucket boundaries are adjusted is the portion of the name after the last
    [:] of the name. *)
Theorem unit_after_last_colon env (s : Sample.t) (h : Float64Histogram) :
  Sample.Value s = ValueFloat64Histogram h ->
  strings.len (Sample.Name s) <= int.maxInt (intSize env) ->
  (countRune ":"%char (Sample.Name s) <= 1)%nat ->
  unitOf env (Sample.Name s) = Ok (afterLastRune ":"%char (Sample.Name s))
  /\ bucketsOf env s
     = Ok (RuntimeMetricsBucketsForUnit env (Buckets h)
             (afterLastRune ":"%char (Sample.Name s))).
Proof.
  intros Hv Hfit Hone.
  assert (Hu : unitOf env (Sample.Name s)
               = Ok (afterLastRune ":"%char (Sample.Name s))).
  { rewrite (unitOf_ok env _ Hfit).
    now rewrite (drop_first_is_afterLast ":"%char _ Hone). }
  split; [exact Hu|].
  unfold bucketsOf. rewrite Hv. simpl bind. rewrite Hu. reflexivity.
Qed.

Lemma unit_after_last_colon_witness :
  unitOf (Examples.env Int64 [2] [Examples.one; Examples.five])
    "/sched/latencies:seconds"
  = Ok "seconds"%string
  /\ bucketsOf (Examples.env Int64 [2] [Examples.one; Examples.five])
       (Examples.sample [2] [Examples.one; Examples.five])
     = Ok (RuntimeMetricsBucketsForUnit
             (Examples.env Int64 [2] [Examples.one; Examples.five])
             [Examples.one; Examples.five] "seconds"%string).
Proof.
  apply (unit_after_last_colon
           (Examples.env Int64 [2] [Examples.one; Examples.five])
           (Examples.sample [2] [Examples.one; Examples.five])
           (mkFloat64Histogram [2] [Examples.one; Examples.five])).
  - reflexivity.
  - vm_compute. discriminate.
  - vm_compute. lia.
Defined.

(** * Cardinality and translation *)

(** A description that [RuntimeMetricsToProm] does not accept has no entry
    in the name table. *)
Lemma excluded_has_no_entry env d :
  snd (RuntimeMetricsToProm env d) = false ->
  expectedRuntimeMetrics env [d] = [].
Proof.
  intros H. unfold expectedRuntimeMetrics, rm2prom. simpl flat_map.
  destruct (RuntimeMetricsToProm env d) as [[[ns ss] n] ok].
  simpl in H. subst ok. reflexivity.
Qed.

Example empty_table_same_cardinality :
  generate (Examples.env Int64 [0; 0]
              [Examples.one; Examples.five; Examples.ten])
  = Ok ([("/sched/goroutines:goroutines",
          "go_sched_goroutines_goroutines")%string], 7)
  /\ generate (withTranslator
                 (Examples.env Int64 [0; 0]
                    [Examples.one; Examples.five; Examples.ten])
                 Examples.toNothing Examples.fqName)
     = Ok ([], 7).
Proof. split; reflexivity. Qed.

(** C7: the cardinality does not depend on the naming table: whatever
    [RuntimeMetricsToProm] and [BuildFQName] are, and so whichever
    descriptions they exclude, [rmCardinality] returns the same and only the
    name table of the generated file changes. *)
Theorem cardinality_ignores_translation env toProm fqName :
  rmCardinality (withTranslator env toProm fqName) = rmCardinality env
  /\ generate (withTranslator env toProm fqName)
     = (c <- rmCardinality env ;;
        Ok (expectedRuntimeMetrics (withTranslator env toProm fqName)
              (All env), c)).
Proof. split; reflexivity. Qed.

(** * Two runs *)

Lemma bucketsOf_same env1 env2 s1 s2 :
  intSize env1 = intSize env2 ->
  (forall b u, RuntimeMetricsBucketsForUnit env1 b u
               = RuntimeMetricsBucketsForUnit env2 b u) ->
  Sample.Name s1 = Sample.Name s2 ->
  bucketsView (Sample.Value s1) = bucketsView (Sample.Value s2) ->
  bucketsOf env1 s1 = bucketsOf env2 s2.
Proof.
  intros Hsz Hadj Hname Hview. unfold bucketsOf, unitOf.
  rewrite Hsz, Hname.
  destruct (Sample.Value s1) as [| | |h1], (Sample.Value s2) as [| | |h2];
    simpl in Hview; try discriminate; try reflexivity.
  injection Hview as Hb. simpl bind at 1 3. rewrite Hb.
  destruct (strings.sliceFrom _ _) as [u|p]; simpl; [|reflexivity].
  now rewrite Hadj.
Qed.

Lemma histogramStep_same env1 env2 c s1 s2 :
  intSize env1 = intSize env2 ->
  bucketsOf env1 s1 = bucketsOf env2 s2 ->
  histogramStep env1 c s1 = histogramStep env2 c s2.
Proof. intros Hsz HB. unfold histogramStep. now rewrite Hsz, HB. Qed.

Lemma handleHistograms_same env1 env2 (ds : list Description.t) : forall c,
  intSize env1 = intSize env2 ->
  (forall b u, RuntimeMetricsBucketsForUnit env1 b u
               = RuntimeMetricsBucketsForUnit env2 b u) ->
  (forall d, In d ds ->
     bucketsView (readValue env1 (Description.Name d))
     = bucketsView (readValue env2 (Description.Name d))) ->
  handleHistograms env1
    (map (fun d => Sample.mk (Description.Name d)
                     (readValue env1 (Description.Name d))) ds) c
  = handleHistograms env2
      (map (fun d => Sample.mk (Description.Name d)
                       (readValue env2 (Description.Name d))) ds) c.
Proof.
  induction ds as [|d ds IH]; intros c Hsz Hadj Hview; [reflexivity|].
  simpl map. simpl handleHistograms.
  rewrite (histogramStep_same env1 env2 c _
             (Sample.mk (Description.Name d)
                (readValue env2 (Description.Name d))) Hsz).
  - destruct (histogramStep env2 c _) as [c1|p]; [|reflexivity].
    simpl bind. apply IH; auto. intros d' Hin. apply Hview. now right.
  - apply bucketsOf_same; auto. apply Hview. now left.
Qed.

Lemma rmCardinality_same env1 env2 :
  sameSnapshot env1 env2 -> rmCardinality env1 = rmCardinality env2.
Proof.
  intros (Hsz & Hall & Hview & Hadj).
  rewrite !rmCardinality_eq, !histograms_eq, <- Hall, <- Hsz.
  apply handleHistograms_same; auto.
  intros d Hin. apply filter_In in Hin. destruct Hin as [Hin Hh]. auto.
Qed.

Lemma expectedRuntimeMetrics_app env ds1 ds2 :
  expectedRuntimeMetrics env (ds1 ++ ds2)
  = expectedRuntimeMetrics env ds1 ++ expectedRuntimeMetrics env ds2.
Proof. unfold expectedRuntimeMetrics. apply flat_map_app. Qed.

(** C8: two runs that see the same catalog and the same boundaries return
    the same cardinality, whatever the counts of the histograms and the
    values of the other metrics are at the time of each run; and the
    translation of a description is the same in both runs and is the entry
    written for it whatever descriptions come before and after it. *)
Theorem runs_agree env1 env2 (d : Description.t) (before after : list Description.t) :
  sameSnapshot env1 env2 ->
  RuntimeMetricsToProm env1 d = RuntimeMetricsToProm env2 d ->
  (forall ns ss n, BuildFQName env1 ns ss n = BuildFQName env2 ns ss n) ->
  rmCardinality env1 = rmCardinality env2
  /\ rm2prom env1 d = rm2prom env2 d
  /\ expectedRuntimeMetrics env1 (before ++ d :: after)
     = expectedRuntimeMetrics env1 before
       ++ expectedRuntimeMetrics env2 [d]
       ++ expectedRuntimeMetrics env1 after.
Proof.
  intros Hsnap Hprom Hfq.
  assert (Hd : rm2prom env1 d = rm2prom env2 d).
  { unfold rm2prom. rewrite Hprom.
    destruct (RuntimeMetricsToProm env2 d) as [[[ns ss] n] ok].
    destruct ok; simpl; [apply Hfq|reflexivity]. }
  split; [now apply rmCardinality_same|]. split; [exact Hd|].
  rewrite expectedRuntimeMetrics_app.
  change (d :: after) with ([d] ++ after).
  rewrite expectedRuntimeMetrics_app. do 2 f_equal.
  unfold expectedRuntimeMetrics. simpl flat_map. now rewrite Hd.
Qed.

Lemma runs_agree_witness :
  rmCardinality (Examples.env Int64 [0; 0]
                   [Examples.one; Examples.five; Examples.ten])
  = rmCardinality (Examples.env Int64 [17; 4]
                     [Examples.one; Examples.five; Examples.ten])
  /\ rm2prom (Examples.env Int64 [0; 0]
                [Examples.one; Examples.five; Examples.ten])
       Examples.goroutines
     = rm2prom (Examples.env Int64 [17; 4]
                  [Examples.one; Examples.five; Examples.ten])
         Examples.goroutines
  /\ expectedRuntimeMetrics
       (Examples.env Int64 [0; 0] [Examples.one; Examples.five; Examples.ten])
       ([Examples.allocs] ++ Examples.goroutines :: [Examples.latencies])
     = expectedRuntimeMetrics
         (Examples.env Int64 [0; 0]
            [Examples.one; Examples.five; Examples.ten])
         [Examples.allocs]
       ++ expectedRuntimeMetrics
            (Examples.env Int64 [17; 4]
               [Examples.one; Examples.five; Examples.ten])
            [Examples.goroutines]
       ++ expectedRuntimeMetrics
            (Examples.env Int64 [0; 0]
               [Examples.one; Examples.five; Examples.ten])
            [Examples.latencies].
Proof.
  apply (runs_agree
           (Examples.env Int64 [0; 0]
              [Examples.one; Examples.five; Examples.ten])
           (Examples.env Int64 [17; 4]
              [Examples.one; Examples.five; Examples.ten])
           Examples.goroutines [Examples.allocs] [Examples.latencies]).
  - split; [reflexivity|]. split; [reflexivity|]. split.
    + intros d [<-|[<-|[<-|[]]]] Hh; try discriminate Hh. reflexivity.
    + intros b u. reflexivity.
  - reflexivity.
  - intros ns ss n. reflexivity.
Defined.

(** * Panics *)

(** Computing the buckets raises no index panic. *)
Lemma bucketsOf_no_index_panic env s i n :
  bucketsOf env s <> Panic (IndexOutOfRange i n).
Proof.
  unfold bucketsOf, unitOf, strings.sliceFrom.
  destruct (Sample.Value s); simpl; try discriminate.
  destruct (_ && _); simpl; discriminate.
Qed.

(** C9: when the adjusted boundaries of every histogram have at least one
    element (and a length that is an int), no access to the first or last
    boundary is out of range; when the boundaries of some histogram are
    empty, the loop body panics at [buckets[len(buckets)-1]] and the run
    ends in a panic. *)
Theorem boundary_accesses env :
  ((forall s B, In s (histograms env) -> bucketsOf env s = Ok B ->
      1 <= len B <= int.maxInt (intSize env)) ->
   forall i n, rmCardinality env <> Panic (IndexOutOfRange i n))
  /\ (forall s, In s (histograms env) -> bucketsOf env s = Ok [] ->
        (forall c, histogramStep env c s = Panic (IndexOutOfRange (-1) 0))
        /\ exists p, rmCardinality env = Panic p).
Proof.
  split.
  - intros Hpre i n Hpanic. rewrite rmCardinality_eq in Hpanic.
    apply handleHistograms_panic_inv in Hpanic.
    destruct Hpanic as (s & c' & Hin & Hstep).
    destruct (bucketsOf env s) as [B|p] eqn:HB.
    + destruct (Hpre s B Hin HB) as [Hlo Hhi].
      assert (Hne : B <> []).
      { intros ->. change (len (@nil float64)) with 0 in Hlo. lia. }
      rewrite (histogramStep_series env c' s B HB Hne Hhi) in Hstep.
      discriminate Hstep.
    + rewrite (histogramStep_panic env c' s p HB) in Hstep.
      injection Hstep as ->.
      exact (bucketsOf_no_index_panic env s i n HB).
  - intros s Hin HB.
    assert (Hstep : forall c,
               histogramStep env c s = Panic (IndexOutOfRange (-1) 0))
      by (intros c; now apply histogramStep_empty).
    split; [exact Hstep|].
    rewrite rmCardinality_eq.
    apply (handleHistograms_panic env (histograms env) _ s Hin).
    intros c'. eexists. apply Hstep.
Qed.

Lemma boundary_accesses_witness :
  (forall i n,
      rmCardinality (Examples.env Int64 [] [Examples.one])
      <> Panic (IndexOutOfRange i n))
  /\ ((forall c,
         histogramStep (Examples.env Int64 [] []) c (Examples.sample [] [])
         = Panic (IndexOutOfRange (-1) 0))
      /\ exists p, rmCardinality (Examples.env Int64 [] []) = Panic p).
Proof.
  split.
  - apply (proj1 (boundary_accesses (Examples.env Int64 [] [Examples.one]))).
    intros s B [<-|[]] HB. vm_compute in HB. injection HB as <-.
    vm_compute. split; discriminate.
  - apply (proj2 (boundary_accesses (Examples.env Int64 [] []))
             (Examples.sample [] [])).
    + left. reflexivity.
    + reflexivity.
Defined.

(** * More on rmCardinality *)

(** ** What one histogram can add *)

Lemma len_pos {A : Type} (l : list A) : l <> [] -> 1 <= len l.
Proof.
  destruct l as [|a l]; [congruence|]. intros _.
  rewrite len_cons. pose proof (len_nonneg l). lia.
Qed.

(** No boundary is both infinities, so a single boundary loses at most one
    series. *)
Lemma histogramSeries_bounds (B : list float64) :
  B <> [] -> 2 <= histogramSeries B <= len B + 2.
Proof.
  intros Hne. unfold histogramSeries.
  destruct B as [|b [|b' B]]; [congruence| |].
  - change (len [b]) with 1. simpl last. simpl hd.
    destruct (isPosInf b) eqn:Ep, (isNegInf b) eqn:En; try lia.
    apply isPosInf_true in Ep. apply isNegInf_true in En. congruence.
  - rewrite !len_cons. pose proof (len_nonneg B).
    destruct (isPosInf _), (isNegInf _); lia.
Qed.

Lemma sampleSeries_bounds env s :
  counted env s -> 2 <= sampleSeries env s.
Proof.
  intros (B & HB & Hne & _). unfold sampleSeries. rewrite HB.
  now apply histogramSeries_bounds.
Qed.

Lemma sumZ_series_bounds env hs :
  Forall (counted env) hs ->
  2 * len hs <= sumZ (map (sampleSeries env) hs).
Proof.
  induction 1 as [|s hs Hs _ IH]; [reflexivity|].
  simpl map. simpl sumZ. rewrite len_cons.
  pose proof (sampleSeries_bounds env s Hs). fold sumZ. unfold sumZ in *. lia.
Qed.

(** ** Runs that return *)

Lemma bucketsOf_ok_histogram env s B :
  bucketsOf env s = Ok B -> exists h, Sample.Value s = ValueFloat64Histogram h.
Proof.
  unfold bucketsOf. destruct (Sample.Value s) as [| | |h]; simpl;
    try discriminate. intros _. now exists h.
Qed.

Lemma histogramStep_ok_inv env c s c' :
  histogramStep env c s = Ok c' ->
  exists h B, Sample.Value s = ValueFloat64Histogram h
              /\ bucketsOf env s = Ok B /\ B <> [].
Proof.
  intros Hstep. destruct (bucketsOf env s) as [B|p] eqn:HB.
  - destruct (bucketsOf_ok_histogram env s B HB) as [h Hh].
    exists h, B. repeat split; auto. intros ->.
    rewrite (histogramStep_empty env c s HB) in Hstep. discriminate.
  - rewrite (histogramStep_panic env c s p HB) in Hstep. discriminate.
Qed.

Lemma handleHistograms_ok_inv env hs : forall c c',
  handleHistograms env hs c = Ok c' ->
  forall s, In s hs -> exists c0 c1, histogramStep env c0 s = Ok c1.
Proof.
  induction hs as [|s0 hs IH]; intros c c' H s Hin; [contradiction|].
  simpl in H. destruct (histogramStep env c s0) as [c1|p] eqn:E;
    simpl in H; [|discriminate].
  destruct Hin as [<-|Hin]; [now exists c, c1|].
  exact (IH c1 c' H s Hin).
Qed.

Lemma handleHistograms_first_panic env pre s post p : forall c,
  Forall (counted env) pre ->
  bucketsOf env s = Panic p ->
  handleHistograms env (pre ++ s :: post) c = Panic p.
Proof.
  induction pre as [|s0 pre IH]; intros c Hpre Hs; simpl.
  - now rewrite (histogramStep_panic env c s p Hs).
  - inversion Hpre as [|? ? Hs0 Hrest]; subst.
    rewrite (histogramStep_counted env c s0 Hs0). simpl bind.
    now apply IH.
Qed.

(** ** Catalogs in another order *)

Lemma Permutation_filter_list {A : Type} (f : A -> bool) (l l' : list A) :
  Permutation l l' -> Permutation (filter f l) (filter f l').
Proof.
  induction 1 as [|a l l' _ IH|a b l|l l' l'' _ IH1 _ IH2]; simpl.
  - constructor.
  - destruct (f a); [now constructor|exact IH].
  - destruct (f a), (f b); try apply Permutation_refl. constructor.
  - now apply Permutation_trans with (filter f l').
Qed.

Lemma sumZ_Permutation (l l' : list Z) :
  Permutation l l' -> sumZ l = sumZ l'.
Proof.
  induction 1 as [|a l l' _ IH|a b l|l l' l'' _ IH1 _ IH2];
    unfold sumZ in *; simpl; lia.
Qed.

Lemma len_Permutation {A : Type} (l l' : list A) :
  Permutation l l' -> len l = len l'.
Proof. intros H. unfold len. now rewrite (Permutation_length H). Qed.

Lemma len_map {A B : Type} (f : A -> B) (l : list A) : len (map f l) = len l.
Proof. unfold len. now rewrite length_map. Qed.

Lemma len_filter_split (ds : list Description.t) :
  len (filter isHistogram ds) + len (filter isScalar ds) = len ds.
Proof.
  induction ds as [|d ds IH]; [reflexivity|].
  simpl filter. unfold isScalar at 1.
  destruct (isHistogram d); simpl negb; cbv iota; rewrite !len_cons; lia.
Qed.

Lemma len_histograms env :
  len (histograms env) = len (filter isHistogram (All env)).
Proof. rewrite histograms_eq. apply len_map. Qed.

Lemma rmCardinality_exact env :
  Forall (counted env) (histograms env) ->
  len (filter isScalar (All env))
  + sumZ (map (sampleSeries env) (histograms env))
  <= int.maxInt (intSize env) ->
  rmCardinality env
  = Ok (len (filter isScalar (All env))
        + sumZ (map (sampleSeries env) (histograms env))).
Proof.
  intros Hall Hfit. rewrite (rmCardinality_total env Hall). f_equal.
  apply IntFacts.wrap_inRange. unfold int.inRange, int.minInt. split; [|exact Hfit].
  pose proof (sumZ_series_bounds env _ Hall).
  pose proof (len_nonneg (histograms env)).
  pose proof (len_nonneg (filter isScalar (All env))).
  pose proof (IntFacts.half_pos (intSize env)). lia.
Qed.

(** A run in which every histogram has buckets, and the sum fits an int,
    returns the number of descriptions that are no histograms plus, for each
    histogram, the series of its buckets. *)
Theorem total_without_overflow env :
  Forall (counted env) (histograms env) ->
  len (filter isScalar (All env))
  + sumZ (map (sampleSeries env) (histograms env))
  <= int.maxInt (intSize env) ->
  rmCardinality env
  = Ok (len (filter isScalar (All env))
        + sumZ (map (fun s =>
                       match bucketsOf env s with
                       | Ok B =>
                           len B + 3 - 1
                           - (if float64_eq (last B S754_nan) (math.Inf 1)
                              then 1 else 0)
                           - (if float64_eq (hd S754_nan B) (math.Inf (-1))
                              then 1 else 0)
                       | Panic _ => 0
                       end) (histograms env))).
Proof. exact (rmCardinality_exact env). Qed.

Lemma counted_example sz counts (bs : list float64) :
  bs <> [] ->
  len bs <= int.maxInt sz ->
  Forall (counted (Examples.env sz counts bs))
    (histograms (Examples.env sz counts bs)).
Proof.
  intros Hne Hfit. constructor; [|constructor].
  exists bs. split; [destruct sz; reflexivity|]. split; assumption.
Qed.

Lemma total_without_overflow_witness :
  rmCardinality
    (Examples.env Int32 [1; 2] [Examples.one; Examples.five; Examples.posInf])
  = Ok 6.
Proof.
  apply (total_without_overflow
           (Examples.env Int32 [1; 2]
              [Examples.one; Examples.five; Examples.posInf])).
  - apply counted_example; [discriminate|vm_compute; discriminate].
  - vm_compute. discriminate.
Defined.

(** The order of the catalog does not matter to a run in which every
    histogram has buckets. *)
Theorem catalog_order_irrelevant env (ds : list Description.t) :
  Permutation (All env) ds ->
  Forall (counted env) (histograms env) ->
  rmCardinality (withCatalog env ds) = rmCardinality env.
Proof.
  intros Hperm Hall.
  pose proof (Permutation_filter_list isHistogram _ _ Hperm) as Hh.
  pose proof (Permutation_filter_list isScalar _ _ Hperm) as Hs.
  assert (Hhs : Permutation (histograms env) (histograms (withCatalog env ds))).
  { rewrite !histograms_eq. apply Permutation_map. exact Hh. }
  assert (Hall' : Forall (counted (withCatalog env ds))
                    (histograms (withCatalog env ds))).
  { change (Forall (counted env) (histograms (withCatalog env ds))).
    exact (Permutation_Forall Hhs Hall). }
  rewrite (rmCardinality_total _ Hall'), (rmCardinality_total _ Hall).
  change (intSize (withCatalog env ds)) with (intSize env).
  change (All (withCatalog env ds)) with ds.
  change (sampleSeries (withCatalog env ds)) with (sampleSeries env).
  rewrite <- (len_Permutation _ _ Hs).
  rewrite <- (sumZ_Permutation _ _
                (Permutation_map (sampleSeries env) Hhs)).
  reflexivity.
Qed.

Lemma catalog_order_irrelevant_witness :
  rmCardinality
    (withCatalog (Examples.env Int64 [] [Examples.one; Examples.five])
       [Examples.latencies; Examples.goroutines; Examples.allocs])
  = rmCardinality (Examples.env Int64 [] [Examples.one; Examples.five]).
Proof.
  apply (catalog_order_irrelevant
           (Examples.env Int64 [] [Examples.one; Examples.five])
           [Examples.latencies; Examples.goroutines; Examples.allocs]).
  - change (Permutation
              [Examples.allocs; Examples.latencies; Examples.goroutines]
              [Examples.latencies; Examples.goroutines; Examples.allocs]).
    apply Permutation_trans
      with [Examples.latencies; Examples.allocs; Examples.goroutines].
    + apply perm_swap.
    + apply perm_skip. apply perm_swap.
  - apply counted_example; [discriminate|vm_compute; discriminate].
Defined.

(** A run returns a number only if the value read for every histogram is a
    histogram and its adjusted buckets are not empty. *)
Theorem success_needs_every_histogram env c (s : Sample.t) :
  rmCardinality env = Ok c ->
  In s (histograms env) ->
  exists h B, Sample.Value s = ValueFloat64Histogram h
              /\ bucketsOf env s = Ok B /\ B <> [].
Proof.
  intros Hrun Hin. rewrite rmCardinality_eq in Hrun.
  destruct (handleHistograms_ok_inv env _ _ _ Hrun s Hin) as (c0 & c1 & Hstep).
  exact (histogramStep_ok_inv env c0 s c1 Hstep).
Qed.

Lemma success_needs_every_histogram_witness :
  exists h B,
    Sample.Value (Examples.sample [4] [Examples.one; Examples.five])
    = ValueFloat64Histogram h
    /\ bucketsOf (Examples.env Int64 [4] [Examples.one; Examples.five])
         (Examples.sample [4] [Examples.one; Examples.five]) = Ok B
    /\ B <> [].
Proof.
  apply (success_needs_every_histogram
           (Examples.env Int64 [4] [Examples.one; Examples.five]) 6
           (Examples.sample [4] [Examples.one; Examples.five])).
  - reflexivity.
  - left. reflexivity.
Defined.

(** When the value read for a histogram is no histogram, and the histograms
    before it have buckets, the run panics in [Float64Histogram()]. *)
Theorem first_bad_histogram_panics env (pre post : list Sample.t) (s : Sample.t) :
  histograms env = pre ++ s :: post ->
  Forall (counted env) pre ->
  bucketsView (Sample.Value s) = None ->
  rmCardinality env = Panic NotFloat64Histogram.
Proof.
  intros Hhs Hpre Hv. rewrite rmCardinality_eq, Hhs.
  apply handleHistograms_first_panic; [exact Hpre|].
  unfold bucketsOf. destruct (Sample.Value s); try reflexivity. discriminate Hv.
Qed.

Lemma first_bad_histogram_panics_witness :
  rmCardinality
    (mkEnv Int64 Examples.catalog (fun _ => ValueBad) Examples.keepBuckets
       Examples.toProm Examples.fqName)
  = Panic NotFloat64Histogram.
Proof.
  apply (first_bad_histogram_panics
           (mkEnv Int64 Examples.catalog (fun _ => ValueBad)
              Examples.keepBuckets Examples.toProm Examples.fqName)
           [] []
           (Sample.mk (Description.Name Examples.latencies) ValueBad)).
  - reflexivity.
  - constructor.
  - reflexivity.
Defined.

(** A histogram with buckets adds at least 2 series and at most
    [len(buckets) + 2], when the running total does not overflow. *)
Theorem histogram_adds_between env c s (B : list float64) :
  bucketsOf env s = Ok B ->
  B <> [] ->
  0 <= c ->
  c + len B + 2 <= int.maxInt (intSize env) ->
  exists c', histogramStep env c s = Ok c'
             /\ c + 2 <= c' <= c + len B + 2.
Proof.
  intros HB Hne Hc Hfit.
  pose proof (histogramSeries_bounds B Hne) as Hb.
  pose proof (len_pos B Hne) as Hlen.
  exists (c + histogramSeries B). split; [|lia].
  rewrite (histogramStep_series env c s B HB Hne) by lia.
  f_equal. apply IntFacts.add_exact. unfold int.inRange, int.minInt.
  pose proof (IntFacts.half_pos (intSize env)). lia.
Qed.

Lemma histogram_adds_between_witness :
  exists c',
    histogramStep (Examples.env Int64 [] [Examples.negInf]) 5
      (Examples.sample [] [Examples.negInf]) = Ok c'
    /\ 5 + 2 <= c' <= 5 + len [Examples.negInf] + 2.
Proof.
  apply (histogram_adds_between (Examples.env Int64 [] [Examples.negInf]) 5
           (Examples.sample [] [Examples.negInf]) [Examples.negInf]).
  - reflexivity.
  - discriminate.
  - lia.
  - vm_compute. discriminate.
Defined.

(** Writing the infinities out costs nothing: buckets [B] that neither start
    with -Inf nor end with +Inf add as many series as [-Inf, B..., +Inf]. *)
Theorem explicit_infinities_are_free env c s1 s2 (B : list float64) :
  bucketsOf env s1 = Ok B ->
  B <> [] ->
  float64_eq (hd S754_nan B) (math.Inf (-1)) = false ->
  float64_eq (last B S754_nan) (math.Inf 1) = false ->
  bucketsOf env s2 = Ok (math.Inf (-1) :: B ++ [math.Inf 1]) ->
  len (math.Inf (-1) :: B ++ [math.Inf 1]) <= int.maxInt (intSize env) ->
  histogramStep env c s2 = histogramStep env c s1.
Proof.
  intros HB Hne Hfirst Hlast HB2 Hfit.
  assert (Hfit1 : len B <= int.maxInt (intSize env)).
  { rewrite len_cons, len_app in Hfit. pose proof (len_nonneg [math.Inf 1]). lia. }
  rewrite (histogramStep_series env c s1 B HB Hne Hfit1).
  rewrite (histogramStep_series env c s2 _ HB2); [|discriminate|exact Hfit].
  do 2 f_equal. unfold histogramSeries.
  rewrite last_cons_snoc. simpl hd.
  change (isPosInf (last B S754_nan)) with (float64_eq (last B S754_nan) (math.Inf 1)).
  change (isNegInf (hd S754_nan B)) with (float64_eq (hd S754_nan B) (math.Inf (-1))).
  rewrite Hfirst, Hlast.
  change (isPosInf (math.Inf 1)) with true.
  change (isNegInf (math.Inf (-1))) with true.
  rewrite len_cons, len_app. change (len [math.Inf 1]) with 1. lia.
Qed.

Lemma explicit_infinities_are_free_witness :
  histogramStep
    (Examples.env Int64 []
       [Examples.negInf; Examples.one; Examples.five; Examples.posInf]) 2
    (Examples.sample []
       [Examples.negInf; Examples.one; Examples.five; Examples.posInf])
  = histogramStep
      (Examples.env Int64 []
         [Examples.negInf; Examples.one; Examples.five; Examples.posInf]) 2
      (Examples.sample [] [Examples.one; Examples.five]).
Proof.
  apply (explicit_infinities_are_free
           (Examples.env Int64 []
              [Examples.negInf; Examples.one; Examples.five; Examples.posInf])
           2
           (Examples.sample [] [Examples.one; Examples.five])
           (Examples.sample []
              [Examples.negInf; Examples.one; Examples.five; Examples.posInf])
           [Examples.one; Examples.five]).
  - reflexivity.
  - discriminate.
  - reflexivity.
  - reflexivity.
  - reflexivity.
  - vm_compute. discriminate.
Defined.

(** The loop over the catalog gives every description either a sample or a
    count, never both: the samples are those of the histograms, in the order
    of the catalog and without a value yet, and the running total is the
    number of the other descriptions. *)
Theorem every_description_sampled_or_counted env (ds : list Description.t) :
  len ds <= int.maxInt (intSize env) ->
  len (fst (collectHistograms env ds)) + snd (collectHistograms env ds)
  = len ds
  /\ map Sample.Name (fst (collectHistograms env ds))
     = map Description.Name
         (filter (fun d => Description.Kind d =? KindFloat64Histogram) ds)
  /\ Forall (fun s => Sample.Value s = ValueBad)
       (fst (collectHistograms env ds)).
Proof.
  intros Hfit. rewrite collectHistograms_eq. cbn [fst snd].
  pose proof (len_filter_split ds) as Hsplit.
  pose proof (len_nonneg (filter isScalar ds)).
  pose proof (len_nonneg (filter isHistogram ds)).
  split; [|split].
  - rewrite len_map, IntFacts.wrap_inRange; [exact Hsplit|].
    unfold int.inRange, int.minInt.
    pose proof (IntFacts.half_pos (intSize env)). lia.
  - rewrite map_map. reflexivity.
  - apply Forall_forall. intros s Hin. apply in_map_iff in Hin.
    destruct Hin as (d & <- & _). reflexivity.
Qed.

Lemma every_description_sampled_or_counted_witness :
  len (fst (collectHistograms (Examples.env Int32 [] []) Examples.catalog))
  + snd (collectHistograms (Examples.env Int32 [] []) Examples.catalog)
  = len Examples.catalog
  /\ map Sample.Name
       (fst (collectHistograms (Examples.env Int32 [] []) Examples.catalog))
     = map Description.Name
         (filter (fun d => Description.Kind d =? KindFloat64Histogram)
            Examples.catalog)
  /\ Forall (fun s => Sample.Value s = ValueBad)
       (fst (collectHistograms (Examples.env Int32 [] []) Examples.catalog)).
Proof.
  apply (every_description_sampled_or_counted (Examples.env Int32 [] [])
           Examples.catalog).
  vm_compute. discriminate.
Defined.

Lemma drop_suffix n : forall s,
  exists pre, s = (pre ++ strings.drop n s)%string.
Proof.
  induction n as [|n IH]; intros s.
  - exists EmptyString. reflexivity.
  - destruct s as [|c s].
    + exists EmptyString. reflexivity.
    + destruct (IH s) as [pre Hpre]. exists (String c pre).
      simpl. now rewrite <- Hpre.
Qed.

(** The slice expression for the unit never panics: the unit is a suffix of
    the name, and the whole name when the name has no colon. *)
Theorem unit_slice_in_bounds env (name : string) :
  strings.len name <= int.maxInt (intSize env) ->
  exists pre u,
    unitOf env name = Ok u
    /\ name = (pre ++ u)%string
    /\ (strings.IndexRune name ":"%char = -1 -> u = name).
Proof.
  intros Hfit.
  destruct (drop_suffix (Z.to_nat (strings.IndexRune name ":"%char + 1)) name)
    as [pre Hpre].
  exists pre, (strings.drop (Z.to_nat (strings.IndexRune name ":"%char + 1)) name).
  split; [now apply unitOf_ok|]. split; [exact Hpre|].
  intros ->. reflexivity.
Qed.

Lemma unit_slice_in_bounds_witness :
  exists pre u,
    unitOf (Examples.env Int64 [] []) "no-colon-here" = Ok u
    /\ "no-colon-here"%string = (pre ++ u)%string
    /\ (strings.IndexRune "no-colon-here" ":"%char = -1
        -> u = "no-colon-here"%string).
Proof.
  apply (unit_slice_in_bounds (Examples.env Int64 [] []) "no-colon-here").
  vm_compute. discriminate.
Defined.

(** A run in which every histogram has buckets returns at least the number
    of descriptions plus the number of histograms. *)
Theorem cardinality_at_least_catalog env :
  Forall (counted env) (histograms env) ->
  len (filter isScalar (All env))
  + sumZ (map (sampleSeries env) (histograms env))
  <= int.maxInt (intSize env) ->
  exists c, rmCardinality env = Ok c
            /\ len (All env) + len (histograms env) <= c.
Proof.
  intros Hall Hfit. eexists. split; [exact (rmCardinality_exact env Hall Hfit)|].
  pose proof (sumZ_series_bounds env _ Hall).
  pose proof (len_filter_split (All env)).
  rewrite len_histograms in *. lia.
Qed.

Lemma cardinality_at_least_catalog_witness :
  exists c,
    rmCardinality (Examples.env Int64 [] [Examples.posInf]) = Ok c
    /\ len (All (Examples.env Int64 [] [Examples.posInf]))
       + len (histograms (Examples.env Int64 [] [Examples.posInf])) <= c.
Proof.
  apply (cardinality_at_least_catalog
           (Examples.env Int64 [] [Examples.posInf])).
  - apply counted_example; [discriminate|vm_compute; discriminate].
  - vm_compute. discriminate.
Defined.

Lemma sumZ_app (l1 l2 : list Z) : sumZ (l1 ++ l2) = sumZ l1 + sumZ l2.
Proof.
  unfold sumZ. induction l1 as [|a l1 IH]; simpl; [reflexivity|]. lia.
Qed.

Lemma histograms_withCatalog_app env (ds1 ds2 : list Description.t) :
  histograms (withCatalog env (ds1 ++ ds2))
  = histograms (withCatalog env ds1) ++ histograms (withCatalog env ds2).
Proof.
  rewrite !histograms_eq.
  change (All (withCatalog env (ds1 ++ ds2))) with (ds1 ++ ds2).
  change (All (withCatalog env ds1)) with ds1.
  change (All (withCatalog env ds2)) with ds2.
  rewrite filter_app, map_app. reflexivity.
Qed.

(** Cardinalities add up: the run over two catalogs put together returns
    the sum of the runs over each, when every histogram has buckets. *)
Theorem cardinality_additive env (ds1 ds2 : list Description.t) (c1 c2 : Z) :
  Forall (counted env) (histograms (withCatalog env ds1)) ->
  Forall (counted env) (histograms (withCatalog env ds2)) ->
  rmCardinality (withCatalog env ds1) = Ok c1 ->
  rmCardinality (withCatalog env ds2) = Ok c2 ->
  rmCardinality (withCatalog env (ds1 ++ ds2))
  = Ok (int.add (intSize env) c1 c2).
Proof.
  intros H1 H2 R1 R2.
  rewrite (rmCardinality_total (withCatalog env ds1) H1) in R1.
  rewrite (rmCardinality_total (withCatalog env ds2) H2) in R2.
  injection R1 as <-. injection R2 as <-.
  assert (H12 : Forall (counted (withCatalog env (ds1 ++ ds2)))
                  (histograms (withCatalog env (ds1 ++ ds2)))).
  { rewrite histograms_withCatalog_app. apply Forall_app. split; assumption. }
  rewrite (rmCardinality_total _ H12), histograms_withCatalog_app.
  change (All (withCatalog env (ds1 ++ ds2))) with (ds1 ++ ds2).
  change (All (withCatalog env ds1)) with ds1.
  change (All (withCatalog env ds2)) with ds2.
  change (intSize (withCatalog env (ds1 ++ ds2))) with (intSize env).
  change (intSize (withCatalog env ds1)) with (intSize env).
  change (intSize (withCatalog env ds2)) with (intSize env).
  change (sampleSeries (withCatalog env (ds1 ++ ds2))) with (sampleSeries env).
  change (sampleSeries (withCatalog env ds1)) with (sampleSeries env).
  change (sampleSeries (withCatalog env ds2)) with (sampleSeries env).
  rewrite filter_app, len_app, map_app, sumZ_app.
  int_norm. do 2 f_equal. lia.
Qed.

Lemma cardinality_additive_witness :
  rmCardinality
    (withCatalog (Examples.env Int64 [] [Examples.one; Examples.posInf])
       ([Examples.allocs; Examples.latencies]
        ++ [Examples.goroutines; Examples.latencies]))
  = Ok (int.add Int64 4 4).
Proof.
  apply (cardinality_additive
           (Examples.env Int64 [] [Examples.one; Examples.posInf])
           [Examples.allocs; Examples.latencies]
           [Examples.goroutines; Examples.latencies] 4 4).
  - constructor; [|constructor].
    exists [Examples.one; Examples.posInf].
    split; [reflexivity|]. split; [discriminate|vm_compute; discriminate].
  - constructor; [|constructor].
    exists [Examples.one; Examples.posInf].
    split; [reflexivity|]. split; [discriminate|vm_compute; discriminate].
  - reflexivity.
  - reflexivity.
Defined.

(** * The name table *)

Lemma expectedRuntimeMetrics_filter env (ds : list Description.t) :
  expectedRuntimeMetrics env ds
  = map (fun d => (Description.Name d, rm2prom env d))
      (filter (translated env) ds).
Proof.
  unfold expectedRuntimeMetrics, translated.
  induction ds as [|d ds IH]; [reflexivity|].
  simpl flat_map. simpl filter. rewrite IH.
  destruct (String.eqb (rm2prom env d) ""); reflexivity.
Qed.

(** Names stay distinct in a part of the catalog. *)
Lemma names_unique_filter (keep : Description.t -> bool) :
  forall ds : list Description.t,
    NoDup (map Description.Name ds) ->
    NoDup (map Description.Name (filter keep ds)).
Proof.
  induction ds as [|d ds IH]; intros Hnd; [constructor|].
  simpl in Hnd. apply NoDup_cons_iff in Hnd. destruct Hnd as [Hfresh Hrest].
  simpl filter. destruct (keep d); [|exact (IH Hrest)].
  simpl map. apply NoDup_cons; [|exact (IH Hrest)].
  intros Hin. apply Hfresh.
  apply in_map_iff in Hin. destruct Hin as (d' & Hname & Hd').
  apply filter_In in Hd'. destruct Hd' as [Hd' _].
  rewrite <- Hname. now apply in_map.
Qed.

(** The name table holds an entry for exactly the descriptions whose
    translation is not the empty string: the name of the description with its
    translation. *)
Theorem table_entries env (ds : list Description.t) (k v : string) :
  In (k, v) (expectedRuntimeMetrics env ds)
  <-> exists d, In d ds /\ k = Description.Name d
                /\ v = rm2prom env d /\ v <> ""%string.
Proof.
  rewrite expectedRuntimeMetrics_filter, in_map_iff. split.
  - intros (d & Hd & Hin). apply filter_In in Hin. destruct Hin as [Hin Ht].
    injection Hd as <- <-. exists d. repeat split; auto.
    unfold translated in Ht. apply negb_true_iff in Ht.
    now apply String.eqb_neq in Ht.
  - intros (d & Hin & -> & -> & Hne). exists d. split; [reflexivity|].
    apply filter_In. split; [exact Hin|].
    unfold translated. apply negb_true_iff. now apply String.eqb_neq.
Qed.

(** A description has no entry exactly when [RuntimeMetricsToProm] reports
    it as not valid or the name built for it is empty. *)
Theorem entry_omitted_iff env (d : Description.t) :
  expectedRuntimeMetrics env [d] = []
  <-> (snd (RuntimeMetricsToProm env d) = false
       \/ BuildFQName env
            (fst (fst (fst (RuntimeMetricsToProm env d))))
            (snd (fst (fst (RuntimeMetricsToProm env d))))
            (snd (fst (RuntimeMetricsToProm env d))) = ""%string).
Proof.
  unfold expectedRuntimeMetrics, rm2prom. simpl flat_map.
  destruct (RuntimeMetricsToProm env d) as [[[ns ss] n] ok]. cbn [fst snd].
  destruct ok; simpl negb; cbv iota.
  - destruct (String.eqb_spec (BuildFQName env ns ss n) "") as [E|E].
    + split; [intros _; now right|reflexivity].
    + split; [discriminate|]. intros [H|H]; [discriminate|contradiction].
  - split; [intros _; now left|reflexivity].
Qed.

(** The keys of the name table follow the order of the catalog, and no key
    is written twice when no two descriptions share a name. *)
Theorem table_keys env (ds : list Description.t) :
  NoDup (map Description.Name ds) ->
  map fst (expectedRuntimeMetrics env ds)
  = map Description.Name
      (filter (fun d => negb (String.eqb (rm2prom env d) "")) ds)
  /\ NoDup (map fst (expectedRuntimeMetrics env ds))
  /\ len (expectedRuntimeMetrics env ds) <= len ds.
Proof.
  intros Hnd. rewrite expectedRuntimeMetrics_filter, map_map. cbn [fst].
  split; [reflexivity|]. split.
  - now apply names_unique_filter.
  - rewrite len_map. apply len_filter_le.
Qed.

Lemma table_keys_witness :
  map fst (expectedRuntimeMetrics (Examples.env Int64 [] []) Examples.catalog)
  = map Description.Name
      (filter (fun d =>
                 negb (String.eqb (rm2prom (Examples.env Int64 [] []) d) ""))
         Examples.catalog)
  /\ NoDup (map fst (expectedRuntimeMetrics (Examples.env Int64 [] [])
                       Examples.catalog))
  /\ len (expectedRuntimeMetrics (Examples.env Int64 [] []) Examples.catalog)
     <= len Examples.catalog.
Proof.
  apply (table_keys (Examples.env Int64 [] []) Examples.catalog).
  repeat constructor; simpl; intuition discriminate.
Defined.

(** * Versions and file names *)

Lemma verb_d_inj (a b : Z) : fmt.verb_d a = fmt.verb_d b -> a = b.
Proof.
  unfold fmt.verb_d. intros H.
  apply (f_equal NilEmpty.int_of_string) in H.
  rewrite !NilEmpty.isi in H. injection H as H.
  now apply DecimalZ.to_int_inj.
Qed.

Lemma string_length_append (s t : string) :
  String.length (s ++ t) = (String.length s + String.length t)%nat.
Proof. induction s as [|c s IH]; simpl; [reflexivity|now rewrite IH]. Qed.

Lemma append_inj_r (t : string) : forall s1 s2 : string,
  (s1 ++ t)%string = (s2 ++ t)%string -> s1 = s2.
Proof.
  induction s1 as [|c1 s1 IH]; intros [|c2 s2] H; simpl in H.
  - reflexivity.
  - apply (f_equal String.length) in H. simpl in H.
    rewrite string_length_append in H. lia.
  - apply (f_equal String.length) in H. simpl in H.
    rewrite string_length_append in H. lia.
  - injection H as -> H. f_equal. now apply IH.
Qed.

Lemma goVersion_String_inj (v1 v2 : goVersion) :
  goVersion_String v1 = goVersion_String v2 -> v1 = v2.
Proof.
  unfold goVersion_String. simpl. intros H. injection H as H.
  now apply verb_d_inj.
Qed.

(** Two versions never share a name, an abbreviation or a file name. *)
Theorem version_names_injective (v1 v2 : goVersion) :
  (goVersion_String v1 = goVersion_String v2 <-> v1 = v2)
  /\ (goVersion_Abbr v1 = goVersion_Abbr v2 <-> v1 = v2)
  /\ (fname v1 = fname v2 <-> v1 = v2).
Proof.
  repeat split; try (intros ->; reflexivity).
  - apply goVersion_String_inj.
  - unfold goVersion_Abbr. simpl. intros H. injection H as H.
    now apply verb_d_inj.
  - unfold fname, goVersion_Abbr. simpl. intros H. injection H as H.
    apply append_inj_r in H. now apply verb_d_inj.
Qed.

Lemma add_one_differs sz (v : Z) : int.inRange sz v -> int.add sz v 1 <> v.
Proof.
  unfold int.inRange. intros [Hlo Hhi] H.
  destruct (Z.eq_dec v (int.maxInt sz)) as [->|Hne].
  - revert H. destruct sz; vm_compute; discriminate.
  - rewrite IntFacts.add_exact in H; [lia|]. unfold int.inRange. lia.
Qed.

(** The version after a version has another name, also after the largest
    int, so the build constraint [v && !next] the template writes names two
    different tags. *)
Theorem next_version_differs sz (v : goVersion) :
  int.minInt sz <= v <= int.maxInt sz ->
  nextVersion sz v <> goVersion_String v.
Proof.
  intros Hv H. unfold nextVersion in H.
  apply goVersion_String_inj in H.
  exact (add_one_differs sz v Hv H).
Qed.

Lemma next_version_differs_witness :
  nextVersion Int32 (int.maxInt Int32) <> goVersion_String (int.maxInt Int32).
Proof.
  apply (next_version_differs Int32 (int.maxInt Int32)).
  vm_compute. split; discriminate.
Defined.

(** ** The version strings of main *)

Lemma Split_head (sep : ascii) : forall s : string,
  exists first rest,
    strings.Split s sep = first :: rest
    /\ strings.IndexRune first sep = -1
    /\ (s = first \/ exists r, s = (first ++ String sep r)%string).
Proof.
  induction s as [|c s IH]; simpl.
  - exists EmptyString, []. repeat split. now left.
  - destruct (Ascii.eqb_spec c sep) as [->|Hne].
    + exists EmptyString, (strings.Split s sep). repeat split.
      right. now exists s.
    + destruct IH as (first & rest & -> & Hno & Hs).
      exists (String c first), rest. split; [reflexivity|]. split.
      * simpl. destruct (Ascii.eqb_spec c sep); [contradiction|].
        rewrite Hno. reflexivity.
      * destruct Hs as [->|(r & ->)]; [now left|right; now exists r].
Qed.

Lemma IndexRune_present (sep : ascii) (s1 s2 : string) :
  strings.IndexRune (s1 ++ String sep s2) sep <> -1.
Proof.
  induction s1 as [|c s1 IH]; simpl.
  - rewrite Ascii.eqb_refl. discriminate.
  - destruct (Ascii.eqb c sep); [discriminate|].
    pose proof (StringsFacts.IndexRune_bounds (s1 ++ String sep s2) sep).
    destruct (_ <? 0) eqn:E; [apply Z.ltb_lt in E|apply Z.ltb_ge in E]; lia.
Qed.

Lemma tool_version_parts (toolVersion : string) :
  exists v,
    toolVersionString toolVersion = Ok v
    /\ strings.IndexRune v " "%char = -1
    /\ (strings.TrimPrefix toolVersion "go" = v
        \/ exists r, strings.TrimPrefix toolVersion "go"
                     = (v ++ String " "%char r)%string).
Proof.
  unfold toolVersionString.
  destruct (Split_head " "%char (strings.TrimPrefix toolVersion "go"))
    as (first & rest & HS & Hno & Hs).
  exists first. rewrite HS. repeat split; assumption.
Qed.

(** Taking the version of the tool never panics: it is the text of
    [runtime.Version()], without a leading "go", up to its first space. *)
Theorem tool_version_string (toolVersion : string) :
  exists v,
    toolVersionString toolVersion = Ok v
    /\ strings.IndexRune v " "%char = -1
    /\ (strings.TrimPrefix toolVersion "go" = v
        \/ exists r, strings.TrimPrefix toolVersion "go"
                     = (v ++ String " "%char r)%string).
Proof.
  exact (tool_version_parts toolVersion).
Qed.

(** Without an argument, main compares the version of the tool with
    itself, but cuts only one of the two strings at the first space: the two
    strings it parses are the same exactly when the version of the tool,
    without its leading "go", has no space. *)
Theorem no_argument_versions (args : list string) (toolVersion : string) :
  len args <> 2 ->
  givenVersionString args toolVersion
  = Ok (strings.TrimPrefix toolVersion "go")
  /\ (givenVersionString args toolVersion = toolVersionString toolVersion
      <-> strings.IndexRune (strings.TrimPrefix toolVersion "go") " "%char
          = -1).
Proof.
  intros Hargs.
  assert (Hg : givenVersionString args toolVersion
               = Ok (strings.TrimPrefix toolVersion "go")).
  { unfold givenVersionString, givenVersion.
    apply Z.eqb_neq in Hargs. rewrite Hargs. reflexivity. }
  split; [exact Hg|]. rewrite Hg.
  destruct (tool_version_parts toolVersion) as (v & Hv & Hno & Hs).
  rewrite Hv. split.
  - intros H. injection H as <-. exact Hno.
  - intros H. destruct Hs as [<-|(r & Hr)]; [reflexivity|].
    rewrite Hr in H. now apply IndexRune_present in H.
Qed.

Lemma no_argument_versions_witness :
  givenVersionString ["gen"%string] "go1.21.0 X:boringcrypto"
  = Ok (strings.TrimPrefix "go1.21.0 X:boringcrypto" "go")
  /\ (givenVersionString ["gen"%string] "go1.21.0 X:boringcrypto"
      = toolVersionString "go1.21.0 X:boringcrypto"
      <-> strings.IndexRune
            (strings.TrimPrefix "go1.21.0 X:boringcrypto" "go") " "%char
          = -1).
Proof.
  apply (no_argument_versions ["gen"%string] "go1.21.0 X:boringcrypto").
  vm_compute. discriminate.
Defined.

(** With one argument, the given version is the argument without a leading
    "go", whatever the version of the tool; the name the generated file
    states for its version is read back as its number. *)
Theorem one_argument_version (prog arg toolVersion : string) (v : goVersion) :
  givenVersionString [prog; arg] toolVersion
  = Ok (strings.TrimPrefix arg "go")
  /\ givenVersionString [prog; goVersion_String v] toolVersion
     = Ok ("1." ++ fmt.verb_d v)%string.
Proof. split; reflexivity. Qed.
